(** * Feature preparation and scaling pipeline (GetData.py, PrepareData.py)

    A shallow embedding of the two classes of the repository,
    [DataScaler] (src/GetData.py) and [DataPreparer] (src/PrepareData.py),
    over a small model of the pandas operations they call.

    Modelling decisions, all of them visible in the definitions below:
    - a float64 cell is an exact rational or the missing marker [NaN];
      arithmetic is exact, infinities are not represented (a division by
      zero gives [NaN]);
    - the square root inside pandas' [Series.std] has no rational value in
      general and is a parameter ([sqrt]) of the scaler section;
    - a DataFrame is column-major: its number of rows and its labelled
      columns, in order; every column is numeric (the free-text columns
      are the ones [remove_columns] takes out) and, where a label has to
      name one column, the labels are taken to be distinct
      ([well_formed]), as a parquet file has them;
    - the messages [prepare_data] prints are kept only for the division
      they make, which can raise; the division is part of the step that
      prints;
    - DataFrame objects that are mutated in place live in a heap, addressed
      by position, so that aliasing ([scale_data(self.data, _, self.data)])
      is modelled as it happens;
    - a Python instance whose attributes are looked up by name is a finite
      map from attribute names to values. *)

From Stdlib Require Import QArith Qminmax SetoidList.
From stdpp Require Import gmap strings list fin_maps.

Local Open Scope string_scope.
Local Open Scope list_scope.

(** ** Python exceptions and fallible results *)

Inductive exn : Type :=
| KeyError (key : string)
| AttributeError (attr : string)
| FileNotFoundError (path : string)
| ZeroDivisionError
| TypeError (what : string).

Inductive result (A : Type) : Type :=
| Ok (a : A)
| Raise (e : exn).
Arguments Ok {A} a.
Arguments Raise {A} e.

Definition rbind {A B} (r : result A) (k : A -> result B) : result B :=
  match r with
  | Ok a => k a
  | Raise e => Raise e
  end.

Notation "'try!' x ':=' r 'in' k" := (rbind r (fun x => k))
  (at level 10, x name, r at level 100, k at level 200).

(** ** A model of the pandas operations the code calls *)

Module Pandas.

(** A float64 cell: a number or the missing marker. *)
Inductive cell : Type :=
| NaN
| Num (q : Q).

Abbreviation Series := (list cell).

Definition isna (c : cell) : bool :=
  match c with NaN => true | Num _ => false end.

Definition notna (c : cell) : bool := negb (isna c).

(** Equality as [unique], [groupby] and [merge] see it: numbers by value,
    and the missing marker equal to itself. *)
Definition cell_eqb (a b : cell) : bool :=
  match a, b with
  | NaN, NaN => true
  | Num x, Num y => Qeq_bool x y
  | _, _ => false
  end.

(** Python truthiness of a float: everything but zero (NaN included). *)
Definition truthy (c : cell) : bool :=
  match c with
  | NaN => true
  | Num q => negb (Qeq_bool q 0)
  end.

(** [c > 0]: a comparison with NaN is false. *)
Definition gt_zero (c : cell) : bool :=
  match c with
  | NaN => false
  | Num q => negb (Qle_bool q 0)
  end.

(** Element-wise [a - b] and [a / b]. *)
Definition sub (a b : cell) : cell :=
  match a, b with
  | Num x, Num y => Num (x - y)
  | _, _ => NaN
  end.

Definition div (a b : cell) : cell :=
  match a, b with
  | Num x, Num y => if Qeq_bool y 0 then NaN else Num (x / y)
  | _, _ => NaN
  end.

(** The non-missing values of a series, in order ([skipna=True]). *)
Fixpoint values (s : Series) : list Q :=
  match s with
  | [] => []
  | NaN :: s' => values s'
  | Num q :: s' => q :: values s'
  end.

Definition Qsum (l : list Q) : Q := fold_left Qplus l 0%Q.

Definition Qlen (l : list Q) : Q := inject_Z (Z.of_nat (length l)).

(** [Series.sum()]: the missing values are skipped, an empty sum is 0. *)
Definition sum (s : Series) : cell := Num (Qsum (values s)).

(** [Series.max()], [Series.min()]: NaN when nothing is present. *)
Definition max (s : Series) : cell :=
  match values s with
  | [] => NaN
  | x :: l => Num (fold_left Qmax l x)
  end.

Definition min (s : Series) : cell :=
  match values s with
  | [] => NaN
  | x :: l => Num (fold_left Qmin l x)
  end.

(** [Series.mean()]. *)
Definition mean (s : Series) : cell :=
  match values s with
  | [] => NaN
  | l => Num (Qsum l / Qlen l)
  end.

(** Insertion sort of the present values, for [median]. *)
Fixpoint Qinsert (x : Q) (l : list Q) : list Q :=
  match l with
  | [] => [x]
  | y :: l' => if Qle_bool x y then x :: l else y :: Qinsert x l'
  end.

Definition Qsort (l : list Q) : list Q := fold_right Qinsert [] l.

(** [Series.median()]: the middle value, or the mean of the two middle
    values. *)
Definition median (s : Series) : cell :=
  let l := Qsort (values s) in
  let n := length l in
  match n with
  | O => NaN
  | _ =>
      if Nat.even n
      then Num ((nth (n / 2 - 1) l 0%Q + nth (n / 2) l 0%Q) / 2)
      else Num (nth (n / 2) l 0%Q)
  end.

(** Sample variance ([ddof=1]) of the present values. *)
Definition var (s : Series) : cell :=
  let l := values s in
  match l with
  | [] | [_] => NaN
  | _ =>
      let m := (Qsum l / Qlen l)%Q in
      Num (Qsum (map (fun x => (x - m) * (x - m))%Q l) / (Qlen l - 1))
  end.

(** [Series.unique()]: the distinct cells in order of first appearance;
    the missing marker counts as a value. *)
Fixpoint unique (s : Series) : Series :=
  match s with
  | [] => []
  | c :: s' => c :: List.filter (fun d => negb (cell_eqb c d)) (unique s')
  end.

(** [Series.nunique()]: the number of distinct non-missing values. *)
Definition nunique (s : Series) : nat :=
  length (unique (List.filter notna s)).

(** [Series.isna().sum()]. *)
Definition count_na (s : Series) : nat := length (List.filter isna s).

(** *** DataFrames *)

Record DataFrame : Type := mkDF {
  len : nat;                          (* len(df): the length of the index *)
  columns : list (string * Series)    (* the labelled columns, in order *)
}.

Definition names (df : DataFrame) : list string := map fst (columns df).

Definition has_label (c : string) (l : list string) : bool :=
  existsb (String.eqb c) l.

(** [df[col]]: KeyError when the label is absent. *)
Fixpoint assoc (c : string) (cols : list (string * Series)) : option Series :=
  match cols with
  | [] => None
  | (n, s) :: cols' => if String.eqb n c then Some s else assoc c cols'
  end.

Definition getitem (df : DataFrame) (c : string) : result Series :=
  match assoc c (columns df) with
  | Some s => Ok s
  | None => Raise (KeyError c)
  end.

(** [df[col] = s]: the column is replaced where it stands, a new label is
    appended. *)
Fixpoint set_column (c : string) (s : Series) (cols : list (string * Series))
  : list (string * Series) :=
  match cols with
  | [] => [(c, s)]
  | (n, s') :: cols' =>
      if String.eqb n c then (n, s) :: cols' else (n, s') :: set_column c s cols'
  end.

Definition setitem (df : DataFrame) (c : string) (s : Series) : DataFrame :=
  mkDF (len df) (set_column c s (columns df)).

(** [df.drop(columns=labels)]: every column bearing one of the labels goes;
    KeyError on a label the frame does not have. *)
Definition drop_labels (df : DataFrame) (labels : list string) : DataFrame :=
  mkDF (len df)
       (List.filter (fun p => negb (has_label (fst p) labels)) (columns df)).

Definition drop (df : DataFrame) (labels : list string) : result DataFrame :=
  match List.find (fun l => negb (has_label l (names df))) labels with
  | Some l => Raise (KeyError l)
  | None => Ok (drop_labels df labels)
  end.

(** [df.iloc[idx]]: the rows at the given positions, in the given order. *)
Definition take (idx : list nat) (s : Series) : Series :=
  map (fun i => nth i s NaN) idx.

Definition iloc (df : DataFrame) (idx : list nat) : DataFrame :=
  mkDF (length idx) (map (fun p => (fst p, take idx (snd p))) (columns df)).

(** [df.dropna(how="any")]: the rows without a missing cell. *)
Definition complete_row (df : DataFrame) (i : nat) : bool :=
  forallb (fun p => notna (nth i (snd p) NaN)) (columns df).

Definition dropna (df : DataFrame) : DataFrame :=
  iloc df (List.filter (complete_row df) (seq 0 (len df))).

(** A frame is rectangular and, as a parquet file demands, its labels are
    distinct. *)
Definition rectangular (df : DataFrame) : Prop :=
  Forall (fun p => length (snd p) = len df) (columns df).

Definition well_formed (df : DataFrame) : Prop :=
  NoDup (names df) /\ rectangular df.

End Pandas.

(** ** State and exceptions

    A method runs against a mutable state and either returns a value or
    raises; the mutations made before a raise stay. *)

Definition M (S A : Type) : Type := S -> result A * S.

Definition ret {S A} (a : A) : M S A := fun s => (Ok a, s).

Definition raise {S A} (e : exn) : M S A := fun s => (Raise e, s).

Definition bind {S A B} (m : M S A) (k : A -> M S B) : M S B :=
  fun s =>
    match m s with
    | (Ok a, s') => k a s'
    | (Raise e, s') => (Raise e, s')
    end.

Definition gets {S A} (f : S -> A) : M S A := fun s => (Ok (f s), s).

Definition modify {S} (f : S -> S) : M S unit := fun s => (Ok tt, f s).

Definition lift {S A} (r : result A) : M S A := fun s => (r, s).

Notation "'do!' x ':=' m 'in' k" := (bind m (fun x => k))
  (at level 10, x name, m at level 100, k at level 200).
Notation "m ';;;' k" := (bind m (fun _ => k))
  (at level 100, k at level 200, right associativity).

(** ** src/GetData.py *)

Module GetData.
Import Pandas.

(** A reference to a DataFrame object: its position in the heap. *)
Abbreviation loc := nat.
Abbreviation heap := (list DataFrame).

(** The attributes [__init__] assigns (GetData.py, lines 40-43). *)
Record DataScaler : Type := mkScaler {
  train : bool;
  data : option loc;
  feature_columns : option (list string);
  target_column : string
}.

(** What a method can see and change: the parquet files, the DataFrame
    objects and the instance. *)
Record world : Type := mkWorld {
  files : gmap string DataFrame;
  objects : heap;
  self : DataScaler
}.

Definition __init__ (train : bool) : DataScaler :=
  mkScaler train None None "results".

(** Heap primitives. *)
Definition deref (l : loc) : M heap DataFrame :=
  fun h =>
    match h !! l with
    | Some df => (Ok df, h)
    | None => (Raise (TypeError "dangling reference"), h)
    end.

Definition assign (l : loc) (df : DataFrame) : M heap unit :=
  fun h => (Ok tt, <[l := df]> h).

Definition alloc (df : DataFrame) : M heap loc :=
  fun h => (Ok (length h), h ++ [df]).

Definition on_heap {A} (m : M heap A) : M world A :=
  fun w =>
    let (r, h) := m (objects w) in
    (r, mkWorld (files w) h (self w)).

Definition set_data (l : loc) : M world unit :=
  modify (fun w =>
    mkWorld (files w) (objects w)
            (mkScaler (train (self w)) (Some l)
                      (feature_columns (self w)) (target_column (self w)))).

Definition set_feature_columns (fc : list string) : M world unit :=
  modify (fun w =>
    mkWorld (files w) (objects w)
            (mkScaler (train (self w)) (data (self w))
                      (Some fc) (target_column (self w)))).

(** [self.data], which must hold a frame by the time it is used. *)
Definition self_data : M world loc :=
  do! d := gets (fun w => data (self w)) in
  match d with
  | Some l => ret l
  | None => raise (TypeError "NoneType")
  end.

Definition self_feature_columns : M world (list string) :=
  do! fc := gets (fun w => feature_columns (self w)) in
  match fc with
  | Some l => ret l
  | None => raise (TypeError "NoneType")
  end.

(** [pd.read_parquet(path)]: a fresh DataFrame object. *)
Definition read_parquet (path : string) : M world loc :=
  do! fs := gets files in
  match fs !! path with
  | Some df => on_heap (alloc df)
  | None => raise (FileNotFoundError path)
  end.

Section Scaler.

(** The floating-point square root of [Series.std]. *)
Variable sqrt : Q -> Q.

(** [Series.std()]: the square root of the sample variance. *)
Definition std (s : Series) : cell :=
  match var s with
  | NaN => NaN
  | Num v => Num (sqrt v)
  end.

(** [(series - m) / s], element by element. *)
Definition standardize (m s : cell) (x : Series) : Series :=
  map (fun v => div (sub v m) s) x.

(** [scale_data] (lines 64-66). [data] and [train_data] are references
    and may be the same object; each column is read, then rewritten in
    [data], before the next one is looked at. *)
Fixpoint scale_loop (data : loc) (feature_columns : list string)
         (train_data : loc) : M heap unit :=
  match feature_columns with
  | [] => ret tt
  | col :: rest =>
      do! d := deref data in
      do! x := lift (getitem d col) in
      do! t := deref train_data in
      do! r := lift (getitem t col) in
      assign data (setitem d col (standardize (mean r) (std r) x)) ;;;
      scale_loop data rest train_data
  end.

Definition scale_data (data : loc) (feature_columns : list string)
           (train_data : loc) : M heap loc :=
  scale_loop data feature_columns train_data ;;;
  ret data.

(** [load_data] (lines 72-75). *)
Definition load_data : M world unit :=
  do! tr := gets (fun w => train (self w)) in
  if tr : bool
  then do! l := read_parquet "data/prepared_data_train.parquet" in set_data l
  else do! l := read_parquet "data/prepared_data_test.parquet" in set_data l.

(** Line 84: the columns other than the target and ["ID"] whose
    [unique()] has more than one entry. *)
Definition select_feature_columns (df : DataFrame) (target : string)
  : list string :=
  map fst
      (List.filter
         (fun p => negb (String.eqb (fst p) target)
                   && negb (String.eqb (fst p) "ID")
                   && Nat.ltb 1 (length (unique (snd p))))
         (columns df)).

(** [isna().sum() / len(data)], one entry per column; 0/0 is NaN. *)
Definition isna_fraction (df : DataFrame) (s : Series) : cell :=
  match len df with
  | O => NaN
  | n => Num (inject_Z (Z.of_nat (count_na s)) / inject_Z (Z.of_nat n))
  end.

(** [x > threshold]; false on NaN. *)
Definition exceeds (threshold : Q) (x : cell) : bool :=
  match x with
  | NaN => false
  | Num q => negb (Qle_bool q threshold)
  end.

(** Lines 88-89: the labels whose missing fraction exceeds the threshold. *)
Definition sparse_columns (threshold : Q) (df : DataFrame) : list string :=
  map fst
      (List.filter (fun p => exceeds threshold (isna_fraction df (snd p)))
                   (columns df)).

(** The messages of lines 90, 96 and 105 print a percentage; all that is
    kept of them is the division that can raise. *)
Definition report (denominator : nat) : result unit :=
  match denominator with
  | O => Raise ZeroDivisionError
  | _ => Ok tt
  end.

(** Lines 87-91: the sparse columns are dropped; the message of line 90
    divides by the number of columns the frame has. *)
Definition drop_sparse_columns (threshold : Q) (df : DataFrame)
  : result DataFrame :=
  let columns_to_drop := sparse_columns threshold df in
  try! _ := report (length (columns df)) in
  drop df columns_to_drop.

(** Lines 94-95: the labels with exactly one distinct non-missing value. *)
Definition constant_columns (df : DataFrame) : list string :=
  map fst (List.filter (fun p => Nat.eqb (nunique (snd p)) 1) (columns df)).

(** Lines 94-97: the constant columns are dropped; the message of line 96
    divides by the number of columns the frame has. *)
Definition drop_constant_columns (df : DataFrame) : result DataFrame :=
  let columns_to_drop := constant_columns df in
  try! _ := report (length (columns df)) in
  drop df columns_to_drop.

(** [prepare_data] (lines 82-108). *)
Definition prepare_data : M world unit :=
  load_data ;;;
  do! target := gets (fun w => target_column (self w)) in
  do! l := self_data in
  do! df := on_heap (deref l) in
  set_feature_columns (select_feature_columns df target) ;;;
  (* Remove columns that have too many NaNs *)
  let threshold := 0.2%Q in
  do! df1 := lift (drop_sparse_columns threshold df) in
  do! l1 := on_heap (alloc df1) in
  set_data l1 ;;;
  (* Remove columns that only have one value *)
  do! df2 := lift (drop_constant_columns df1) in
  do! l2 := on_heap (alloc df2) in
  set_data l2 ;;;
  (* Update feature_columns *)
  do! fc := self_feature_columns in
  set_feature_columns (List.filter (fun col => has_label col (names df2)) fc) ;;;
  (* Remove rows with missing values *)
  let n := len df2 in
  do! l3 := on_heap (alloc (dropna df2)) in
  set_data l3 ;;;
  lift (report n) ;;;
  (* Scale every column in the feature_columns list *)
  do! fc' := self_feature_columns in
  do! l4 := on_heap (scale_data l3 fc' l3) in
  set_data l4.

(** [get_data] (lines 119-129). *)
Definition get_data : M world (loc * list string * string) :=
  do! tr := gets (fun w => train (self w)) in
  if tr : bool
  then
    prepare_data ;;;
    do! l := self_data in
    do! fc := self_feature_columns in
    do! target := gets (fun w => target_column (self w)) in
    ret (l, fc, target)
  else
    prepare_data ;;;
    do! l := self_data in
    do! df := on_heap (deref l) in
    do! train_data := on_heap (alloc df) in          (* self.data.copy() *)
    do! l' := read_parquet "data/prepared_data_test.parquet" in
    set_data l' ;;;
    (* Scale every column in the feature_columns list *)
    do! fc := self_feature_columns in
    do! l'' := on_heap (scale_data l' fc train_data) in
    set_data l'' ;;;
    do! target := gets (fun w => target_column (self w)) in
    ret (l'', fc, target).

End Scaler.

End GetData.

(** ** src/PrepareData.py *)

Module PrepareData.
Import Pandas.

(** *** The pandas operations of the aggregator *)

(** The frame a [groupby(...).agg()] returns: the group keys are its index
    and no longer one of its columns. *)
Record Grouped : Type := mkGrouped {
  index_name : string;
  index : Series;
  summaries : list (string * Series)
}.

(** What [rename_columns] and [pd.merge] need of a frame, whichever of the
    two kinds it is. *)
Class Frame (F : Type) : Type := {
  frame_columns : F -> list (string * Series);
  with_columns : F -> list (string * Series) -> F;
  (* the key named [on]: a column, or the index of that name *)
  key_of : F -> string -> result Series;
  (* the columns a merge on [on] brings along *)
  payload : F -> string -> list (string * Series)
}.

#[global] Instance DataFrame_Frame : Frame DataFrame := {
  frame_columns := columns;
  with_columns df cols := mkDF (len df) cols;
  key_of df on := getitem df on;
  payload df on :=
    List.filter (fun p => negb (String.eqb (fst p) on)) (columns df)
}.

#[global] Instance Grouped_Frame : Frame Grouped := {
  frame_columns := summaries;
  with_columns g cols := mkGrouped (index_name g) (index g) cols;
  key_of g on :=
    if String.eqb (index_name g) on then Ok (index g)
    else match assoc on (summaries g) with
         | Some s => Ok s
         | None => Raise (KeyError on)
         end;
  payload g on :=
    List.filter (fun p => negb (String.eqb (fst p) on)) (summaries g)
}.

(** [df.rename(columns=mapping)] with the mapping given as a function. *)
Definition rename {F} `{Frame F} (f : string -> string) (df : F) : F :=
  with_columns df (map (fun p => (f (fst p), snd p)) (frame_columns df)).

(** The distinct values of a list of rationals, first occurrences kept. *)
Fixpoint Qdistinct (l : list Q) : list Q :=
  match l with
  | [] => []
  | x :: l' => x :: List.filter (fun y => negb (Qeq_bool x y)) (Qdistinct l')
  end.

(** The group keys of [groupby(by)]: the distinct non-missing values of the
    key column, sorted. *)
Definition group_keys (key : Series) : list Q := Qsort (Qdistinct (values key)).

(** The positions of the rows of one group. *)
Definition group_rows (key : Series) (k : Q) : list nat :=
  List.filter (fun i => cell_eqb (nth i key NaN) (Num k))
              (seq 0 (length key)).

(** [df.groupby(by).agg()]: one row per key, one column per column of [df]
    other than the key; KeyError when [df] has no column [by]. *)
Definition groupby (df : DataFrame) (by_ : string) (agg : Series -> cell)
  : result Grouped :=
  try! key := getitem df by_ in
  let keys := group_keys key in
  Ok (mkGrouped by_ (map Num keys)
        (map (fun p =>
                (fst p, map (fun k => agg (take (group_rows key k) (snd p))) keys))
             (List.filter (fun p => negb (String.eqb (fst p) by_)) (columns df)))).

(** [pd.concat(frames, axis=1)] of frames that carry the same index, as the
    five summaries of one table do. *)
Definition concat (frames : list Grouped) : Grouped :=
  match frames with
  | [] => mkGrouped "" [] []
  | g :: _ => mkGrouped (index_name g) (index g) (flat_map summaries frames)
  end.

(** [pd.merge(left, right, on=on, how="left")].  Every left row is kept,
    once per right row with an equal key and once, with the right side
    missing, when there is none.  A label that both sides carry gets the
    suffixes [_x] and [_y]. *)
Definition matches (rkey : Series) (k : cell) : list nat :=
  List.filter (fun j => cell_eqb k (nth j rkey NaN)) (seq 0 (length rkey)).

Definition join_rows (lkey rkey : Series) : list (nat * option nat) :=
  flat_map (fun i =>
              match matches rkey (nth i lkey NaN) with
              | [] => [(i, None)]
              | js => map (fun j => (i, Some j)) js
              end)
           (seq 0 (length lkey)).

Definition take_opt (idx : list (option nat)) (s : Series) : Series :=
  map (fun o => match o with Some j => nth j s NaN | None => NaN end) idx.

Definition merge {R} `{Frame R} (left : DataFrame) (right : R) (on : string)
  : result DataFrame :=
  try! lkey := getitem left on in
  try! rkey := key_of right on in
  let rows := join_rows lkey rkey in
  let rcols := payload right on in
  let lnames := map fst (payload left on) in
  let rnames := map fst rcols in
  Ok (mkDF (length rows)
        (map (fun p =>
                ((if negb (String.eqb (fst p) on) && has_label (fst p) rnames
                  then fst p ++ "_x" else fst p)%string,
                 take (map fst rows) (snd p)))
             (columns left)
         ++
         map (fun p =>
                ((if has_label (fst p) lnames
                  then fst p ++ "_y" else fst p)%string,
                 take_opt (map snd rows) (snd p)))
             rcols)).

(** [df.apply(f, axis=1)]: [f] is handed each row as a lookup by label. *)
Definition row (df : DataFrame) (i : nat) (c : string) : result cell :=
  try! s := getitem df c in Ok (nth i s NaN).

Fixpoint collect {A} (l : list (result A)) : result (list A) :=
  match l with
  | [] => Ok []
  | r :: l' => try! a := r in try! rest := collect l' in Ok (a :: rest)
  end.

Definition apply_rows (df : DataFrame) (f : (string -> result cell) -> result cell)
  : result Series :=
  collect (map (fun i => f (row df i)) (seq 0 (len df))).

(** *** The class *)

(** The values an attribute of the instance can hold. *)
Inductive pyval : Type :=
| PNone
| PBool (b : bool)
| PStr (s : string)
| PList (l : list string)
| PFrame (df : DataFrame).

(** What a method can see and change: the files and the instance, whose
    attributes are looked up by name. *)
Record world : Type := mkWorld {
  files : gmap string DataFrame;
  self : gmap string pyval
}.

Definition getattr (name : string) : M world pyval :=
  fun w =>
    match self w !! name with
    | Some v => (Ok v, w)
    | None => (Raise (AttributeError name), w)
    end.

Definition setattr (name : string) (v : pyval) : M world unit :=
  modify (fun w => mkWorld (files w) (<[name := v]> (self w))).

Definition py_bool (v : pyval) : bool :=
  match v with
  | PNone => false
  | PBool b => b
  | PStr s => negb (String.eqb s "")
  | PList l => negb (Nat.eqb (length l) 0)
  | PFrame _ => true
  end.

Definition as_str (v : pyval) : M world string :=
  match v with
  | PStr s => ret s
  | _ => raise (TypeError "str")
  end.

Definition as_list (v : pyval) : M world (list string) :=
  match v with
  | PList l => ret l
  | _ => raise (TypeError "list")
  end.

Definition as_frame (v : pyval) : M world DataFrame :=
  match v with
  | PFrame df => ret df
  | _ => raise (TypeError "DataFrame")
  end.

(** [pd.read_csv(path)]. *)
Definition read_csv (path : string) : M world DataFrame :=
  do! fs := gets files in
  match fs !! path with
  | Some df => ret df
  | None => raise (FileNotFoundError path)
  end.

(** [load_data] (lines 79-95). *)
Definition load_data : M world unit :=
  do! tr := getattr "train" in
  do! p := getattr "path" in
  do! path := as_str p in
  do! paths :=
    (if py_bool tr
     then
       do! m := read_csv (path ++ "y_train.csv")%string in
       setattr "data_match" (PFrame m) ;;;
       ret ((path ++ "Train_Data/train_home_team_statistics_df.csv")%string,
            (path ++ "Train_Data/train_home_player_statistics_df.csv")%string,
            (path ++ "Train_Data/train_away_team_statistics_df.csv")%string,
            (path ++ "Train_Data/train_away_player_statistics_df.csv")%string)
     else
       ret ((path ++ "Test_Data/test_home_team_statistics_df.csv")%string,
            (path ++ "Test_Data/test_home_player_statistics_df.csv")%string,
            (path ++ "Test_Data/test_away_team_statistics_df.csv")%string,
            (path ++ "Test_Data/test_away_player_statistics_df.csv")%string)) in
  let '(data_home_team_path, data_home_players_path,
        data_away_team_path, data_away_players_path) := paths in
  do! ht := read_csv data_home_team_path in
  setattr "data_home_team" (PFrame ht) ;;;
  do! hp := read_csv data_home_players_path in
  setattr "data_home_players" (PFrame hp) ;;;
  do! at_ := read_csv data_away_team_path in
  setattr "data_away_team" (PFrame at_) ;;;
  do! ap := read_csv data_away_players_path in
  setattr "data_away_players" (PFrame ap).

(** [__init__] (lines 61-73). *)
Definition __init__ (path : string) (train : bool) (save_to_excel : bool)
           (colstonotconsider : option (list string)) : M world unit :=
  let colstonotconsider :=
    match colstonotconsider with
    | None => ["TEAM_NAME"; "LEAGUE"; "PLAYER_NAME"; "POSITION"]
    | Some l => l
    end in
  setattr "train" (PBool train) ;;;
  setattr "path" (PStr path) ;;;
  setattr "save_to_excel" (PBool save_to_excel) ;;;
  setattr "colstonotconsider" (PList colstonotconsider) ;;;
  setattr "data_home_team" PNone ;;;
  setattr "data_home_players" PNone ;;;
  setattr "data_away_team" PNone ;;;
  setattr "data_away_players" PNone ;;;
  setattr "data_match" PNone ;;;
  setattr "data" PNone ;;;
  load_data.

(** The inner loop of [remove_columns] (lines 102-104). *)
Definition remove_from (cols : list string) (df : DataFrame) : DataFrame :=
  fold_left (fun d col =>
               if has_label col (names d) then drop_labels d [col] else d)
            cols df.

(** [remove_columns] (lines 101-104): the four frames are changed in
    place. *)
Fixpoint remove_columns_loop (cols : list string) (frames : list string)
  : M world unit :=
  match frames with
  | [] => ret tt
  | name :: rest =>
      do! v := getattr name in
      do! df := as_frame v in
      setattr name (PFrame (remove_from cols df)) ;;;
      remove_columns_loop cols rest
  end.

Definition remove_columns : M world unit :=
  do! c := getattr "colstonotconsider" in
  do! cols := as_list c in
  remove_columns_loop cols
    ["data_home_team"; "data_home_players"; "data_away_team"; "data_away_players"].

(** [rename_columns] (lines 124-128). *)
Definition rename_columns {F} `{Frame F} (data : F) (prefix suffix : string) : F :=
  let data :=
    if negb (String.eqb prefix "")
    then rename (fun col => if String.eqb col "ID" then col else prefix ++ col)%string data
    else data in
  let data :=
    if negb (String.eqb suffix "")
    then rename (fun col => if String.eqb col "ID" then col else col ++ suffix)%string data
    else data in
  data.

(** [prepare_player_data] (lines 146-156).  [prefix] is a parameter of the
    method and its body never reads it. *)
Definition prepare_player_data (data : DataFrame) (prefix : string)
  : result Grouped :=
  try! data_sum := groupby data "ID" sum in
  let data_sum := rename_columns data_sum "" "_SUM" in
  try! data_max := groupby data "ID" max in
  let data_max := rename_columns data_max "" "_MAX" in
  try! data_min := groupby data "ID" min in
  let data_min := rename_columns data_min "" "_MIN" in
  try! data_mean := groupby data "ID" mean in
  let data_mean := rename_columns data_mean "" "_MEAN" in
  try! data_median := groupby data "ID" median in
  let data_median := rename_columns data_median "" "_MEDIAN" in
  Ok (concat [data_sum; data_max; data_min; data_mean; data_median]).

(** The lambda of line 165. *)
Definition outcome_label (x : string -> result cell) : result cell :=
  try! home_wins := x "HOME_WINS" in
  if gt_zero home_wins then Ok (Num 0)
  else
    try! draw := x "DRAW" in
    if truthy draw then Ok (Num 1) else Ok (Num 2).

(** Line 165: the column [results] is set, in place. *)
Definition add_results (data_match : DataFrame) : result DataFrame :=
  try! labels := apply_rows data_match outcome_label in
  Ok (setitem data_match "results" labels).

(** Lines 165-166. *)
Definition derive_target (data_match : DataFrame) : result DataFrame :=
  try! m := add_results data_match in
  drop m ["HOME_WINS"; "DRAW"; "AWAY_WINS"].

Definition get_frame (name : string) : M world DataFrame :=
  do! v := getattr name in as_frame v.

Definition mode_is_train : M world bool :=
  do! mode := getattr "mode" in
  ret (match mode with PStr s => String.eqb s "train" | _ => false end).

(** [prepare_data] (lines 162-183). *)
Definition prepare_data : M world unit :=
  remove_columns ;;;
  do! is_train := mode_is_train in
  (if is_train : bool
   then
     do! m := get_frame "data_match" in
     do! m1 := lift (add_results m) in
     setattr "data_match" (PFrame m1) ;;;
     do! m2 := lift (drop m1 ["HOME_WINS"; "DRAW"; "AWAY_WINS"]) in
     setattr "data_match" (PFrame m2)
   else ret tt) ;;;
  do! ht := get_frame "data_home_team" in
  setattr "data_home_team" (PFrame (rename_columns ht "HOME_" "")) ;;;
  do! at_ := get_frame "data_away_team" in
  setattr "data_away_team" (PFrame (rename_columns at_ "AWAY_" "")) ;;;
  do! hp := get_frame "data_home_players" in
  setattr "data_home_players" (PFrame (rename_columns hp "HOME_PLAYERS_" "")) ;;;
  do! ap := get_frame "data_away_players" in
  setattr "data_away_players" (PFrame (rename_columns ap "AWAY_PLAYERS_" "")) ;;;
  do! hp := get_frame "data_home_players" in
  do! data_home_players_prepared := lift (prepare_player_data hp "HOME_PLAYERS_") in
  do! ap := get_frame "data_away_players" in
  do! data_away_players_prepared := lift (prepare_player_data ap "AWAY_PLAYERS_") in
  do! is_train := mode_is_train in
  (if is_train : bool
   then
     do! m := get_frame "data_match" in
     do! ht := get_frame "data_home_team" in
     do! d := lift (merge m ht "ID") in
     setattr "data" (PFrame d)
   else
     do! ht := getattr "data_home_team" in
     setattr "data" ht) ;;;
  do! d := get_frame "data" in
  do! at_ := get_frame "data_away_team" in
  do! d := lift (merge d at_ "ID") in
  setattr "data" (PFrame d) ;;;
  do! d := get_frame "data" in
  do! d := lift (merge d data_home_players_prepared "ID") in
  setattr "data" (PFrame d) ;;;
  do! d := get_frame "data" in
  do! d := lift (merge d data_away_players_prepared "ID") in
  setattr "data" (PFrame d).

(** [save_data] (lines 189-195): the prints apart. *)
Definition to_file (path : string) (df : DataFrame) : M world unit :=
  modify (fun w => mkWorld (<[path := df]> (files w)) (self w)).

(** [self.data.to_parquet(...)]: a method only a frame has. *)
Definition frame_method (method : string) (v : pyval) : M world DataFrame :=
  match v with
  | PFrame df => ret df
  | _ => raise (AttributeError method)
  end.

Definition save_data : M world unit :=
  do! tr := getattr "train" in
  let output_prefix := if py_bool tr then "train" else "test" in
  do! v := getattr "data" in
  do! d := frame_method "to_parquet" v in
  to_file ("data/prepared_data_" ++ output_prefix ++ ".parquet")%string d ;;;
  do! x := getattr "save_to_excel" in
  if py_bool x
  then
    do! v := getattr "data" in
    do! d := frame_method "to_excel" v in
    to_file ("data/prepared_data_" ++ output_prefix ++ ".xlsx")%string d
  else ret tt.

End PrepareData.

(** ** Reference definitions

    What the specification says in its own words, for comparison with the
    code. *)

Module Reference.
Import Pandas GetData.

(** The fraction of missing values of a column, as a rational. *)
Definition missing_fraction (df : DataFrame) (s : Series) : Q :=
  inject_Z (Z.of_nat (count_na s)) / inject_Z (Z.of_nat (len df)).

(** [fit_and_scale] on values: one listed column is replaced by its
    standardized values, the statistics being those of the reference
    table. *)
Definition scale_column (sqrt : Q -> Q) (reference table : DataFrame)
           (c : string) : DataFrame :=
  match getitem table c, getitem reference c with
  | Ok x, Ok r => setitem table c (standardize (mean r) (std sqrt r) x)
  | _, _ => table
  end.

Definition fit_and_scale (sqrt : Q -> Q) (table : DataFrame)
           (feature_columns : list string) (reference : DataFrame) : DataFrame :=
  fold_left (scale_column sqrt reference) feature_columns table.

(** The file [load_data] reads (GetData.py, lines 72-75). *)
Definition parquet_of (train : bool) : string :=
  if train then "data/prepared_data_train.parquet"
  else "data/prepared_data_test.parquet".

(** The label [derive_target] is said to give: by truthiness of the
    home-win flag, then of the draw flag. *)
Definition claimed_label (home_wins draw : cell) : cell :=
  if truthy home_wins then Num 0
  else if truthy draw then Num 1
  else Num 2.

(** The label the lambda of line 165 gives to a row. *)
Definition row_label (home_wins draw : cell) : cell :=
  if gt_zero home_wins then Num 0
  else if truthy draw then Num 1
  else Num 2.



(** The attribute columns of a player table: all but the identifier. *)
Definition attribute_columns (data : DataFrame) : list (string * Series) :=
  List.filter (fun p => negb (String.eqb (fst p) "ID")) (columns data).

(** One block of an aggregated player table: for every attribute column a
    column named after it and the statistic, holding, per match
    identifier, the statistic of the attribute over the rows of that
    identifier. *)
Definition summary_block (key : Series) (attributes : list (string * Series))
           (suffix : string) (agg : Series -> cell) : list (string * Series) :=
  map (fun p =>
         ((fst p ++ suffix)%string,
          map (fun k => agg (take (PrepareData.group_rows key k) (snd p)))
              (PrepareData.group_keys key)))
      attributes.

(** The table [build] is said to produce in training mode: the derived
    target, left-joined with the namespaced home-team table, the namespaced
    away-team table and the two aggregated player blocks, the excluded
    columns removed first. *)
Definition claimed_build (excluded : list string)
           (outcome home_team home_players away_team away_players : DataFrame)
  : result DataFrame :=
  let home_team :=
    PrepareData.rename_columns (PrepareData.remove_from excluded home_team) "HOME_" "" in
  let away_team :=
    PrepareData.rename_columns (PrepareData.remove_from excluded away_team) "AWAY_" "" in
  let home_players :=
    PrepareData.rename_columns (PrepareData.remove_from excluded home_players)
                               "HOME_PLAYERS_" "" in
  let away_players :=
    PrepareData.rename_columns (PrepareData.remove_from excluded away_players)
                               "AWAY_PLAYERS_" "" in
  try! target := PrepareData.derive_target outcome in
  try! home_block := PrepareData.prepare_player_data home_players "HOME_PLAYERS_" in
  try! away_block := PrepareData.prepare_player_data away_players "AWAY_PLAYERS_" in
  try! d := PrepareData.merge target home_team "ID" in
  try! d := PrepareData.merge d away_team "ID" in
  try! d := PrepareData.merge d home_block "ID" in
  PrepareData.merge d away_block "ID".

(** The attributes an instance has once [DataPreparer.__init__] has
    returned. *)
Definition constructed (train : bool) (w : PrepareData.world) : Prop :=
  PrepareData.self w !! "mode" = None
  /\ PrepareData.self w !! "train" = Some (PrepareData.PBool train)
  /\ PrepareData.self w !! "data" = Some PrepareData.PNone
  /\ (exists cols,
        PrepareData.self w !! "colstonotconsider" = Some (PrepareData.PList cols))
  /\ (exists df,
        PrepareData.self w !! "data_home_team" = Some (PrepareData.PFrame df))
  /\ (exists df,
        PrepareData.self w !! "data_home_players" = Some (PrepareData.PFrame df))
  /\ (exists df,
        PrepareData.self w !! "data_away_team" = Some (PrepareData.PFrame df))
  /\ (exists df,
        PrepareData.self w !! "data_away_players" = Some (PrepareData.PFrame df)).

End Reference.

(** ** Small tables, to run the code on *)

Module Examples.
Import Pandas.

(** A prepared table: a complete column, a sparse one and a constant one. *)
Definition prepared : DataFrame :=
  mkDF 5 [("ID", [Num 1; Num 2; Num 3; Num 4; Num 5]);
          ("a", [Num 1; Num 2; Num 3; NaN; Num 5]);
          ("b", [Num 1; NaN; NaN; Num 4; Num 5]);
          ("c", [Num 7; Num 7; Num 7; Num 7; Num 7]);
          ("results", [Num 0; Num 1; Num 2; Num 0; Num 1])].

(** Two test tables over the same matches: [a] is complete in the first
    and mostly missing in the second. *)
Definition test_complete : DataFrame :=
  mkDF 5 [("ID", [Num 101; Num 102; Num 103; Num 104; Num 105]);
          ("a", [Num 1; Num 2; Num 3; Num 4; Num 5])].

Definition test_sparse : DataFrame :=
  mkDF 5 [("ID", [Num 101; Num 102; Num 103; Num 104; Num 105]);
          ("a", [Num 1; NaN; NaN; Num 4; Num 5])].

Definition parquet_files (train test : DataFrame) : gmap string DataFrame :=
  {[ "data/prepared_data_train.parquet" := train;
     "data/prepared_data_test.parquet" := test ]}.

(** Two players of match 1, with 2 and 3 goals. *)
Definition players : DataFrame :=
  mkDF 2 [("ID", [Num 1; Num 1]); ("goals", [Num 2; Num 3])].

(** An outcome table whose home-win flag is negative in its one row. *)
Definition odd_outcome : DataFrame :=
  mkDF 1 [("ID", [Num 1]); ("HOME_WINS", [Num (-1)]);
          ("DRAW", [Num 0]); ("AWAY_WINS", [Num 0])].

(** A training set of two matches. *)
Definition outcomes : DataFrame :=
  mkDF 2 [("ID", [Num 1; Num 2]); ("HOME_WINS", [Num 1; Num 0]);
          ("DRAW", [Num 0; Num 0]); ("AWAY_WINS", [Num 0; Num 1])].

Definition teams : DataFrame :=
  mkDF 2 [("ID", [Num 1; Num 2]); ("TEAM_NAME", [NaN; NaN]);
          ("shots", [Num 10; Num 12])].

Definition match_players : DataFrame :=
  mkDF 4 [("ID", [Num 1; Num 1; Num 2; Num 2]);
          ("PLAYER_NAME", [NaN; NaN; NaN; NaN]);
          ("goals", [Num 2; Num 3; Num 0; Num 1])].

Definition csv_files : gmap string DataFrame :=
  {[ "d/y_train.csv" := outcomes;
     "d/Train_Data/train_home_team_statistics_df.csv" := teams;
     "d/Train_Data/train_home_player_statistics_df.csv" := match_players;
     "d/Train_Data/train_away_team_statistics_df.csv" := teams;
     "d/Train_Data/train_away_player_statistics_df.csv" := match_players ]}.

End Examples.

(** ** Further reference definitions *)

Module Auxiliary.
Import Pandas.

(** The files [DataPreparer.load_data] reads, in the order it reads them
    (PrepareData.py, lines 79-95). *)
Definition csv_paths (path : string) (train : bool) : list string :=
  if train
  then [(path ++ "y_train.csv")%string;
        (path ++ "Train_Data/train_home_team_statistics_df.csv")%string;
        (path ++ "Train_Data/train_home_player_statistics_df.csv")%string;
        (path ++ "Train_Data/train_away_team_statistics_df.csv")%string;
        (path ++ "Train_Data/train_away_player_statistics_df.csv")%string]
  else [(path ++ "Test_Data/test_home_team_statistics_df.csv")%string;
        (path ++ "Test_Data/test_home_player_statistics_df.csv")%string;
        (path ++ "Test_Data/test_away_team_statistics_df.csv")%string;
        (path ++ "Test_Data/test_away_player_statistics_df.csv")%string].

Definition missing (fs : gmap string DataFrame) (p : string) : bool :=
  match fs !! p with
  | Some _ => false
  | None => true
  end.

(** What [rename_columns] makes of one label: the prefix first, then the
    suffix, each time sparing the label [ID]. *)
Definition rename_label (prefix suffix c : string) : string :=
  let c1 := if String.eqb c "ID" then c else (prefix ++ c)%string in
  if String.eqb c1 "ID" then c1 else (c1 ++ suffix)%string.

(** A table with a missing identifier and one without rows. *)
Definition no_rows : DataFrame := mkDF 0 [("ID", []); ("a", [])].

Definition all_sparse : DataFrame :=
  mkDF 2 [("a", [NaN; Num 1]); ("b", [NaN; NaN])].

(** A table whose one column has one value. *)
Definition all_constant : DataFrame := mkDF 2 [("a", [Num 1; Num 1])].

End Auxiliary.

(** * Properties *)

(** ** Facts about the pandas model *)

Module PandasFacts.
Import Pandas.

Lemma has_label_In c l : has_label c l = true <-> In c l.
Proof.
  unfold has_label. rewrite existsb_exists. split.
  - intros (x & Hx & Heq). apply String.eqb_eq in Heq. now subst.
  - intros Hin. exists c. split; [assumption | apply String.eqb_refl].
Qed.

Lemma has_label_not_In c l : has_label c l = false <-> ~ In c l.
Proof.
  rewrite <- has_label_In. destruct (has_label c l); split; congruence.
Qed.

Lemma filter_nil_iff {A} (f : A -> bool) l :
  List.filter f l = [] <-> (forall x, In x l -> f x = false).
Proof.
  induction l as [|a l IH]; simpl.
  - split; [intros _ x [] | reflexivity].
  - destruct (f a) eqn:Ha.
    + split; [discriminate | intros H; specialize (H a (or_introl eq_refl)); congruence].
    + rewrite IH. split.
      * intros H x [<-|Hx]; auto.
      * intros H x Hx. apply H. now right.
Qed.

Lemma filter_all {A} (f : A -> bool) l :
  (forall x, In x l -> f x = true) -> List.filter f l = l.
Proof.
  induction l as [|a l IH]; simpl; intros H; [reflexivity|].
  rewrite (H a (or_introl eq_refl)). f_equal. apply IH. intros x Hx. apply H. now right.
Qed.

Lemma find_none_iff {A} (f : A -> bool) l :
  List.find f l = None <-> (forall x, In x l -> f x = false).
Proof.
  split; [apply find_none|].
  induction l as [|a l IH]; simpl; intros H; [reflexivity|].
  rewrite (H a (or_introl eq_refl)). apply IH. intros x Hx. apply H. now right.
Qed.

(** [drop] does not raise on labels the frame has. *)
Lemma drop_ok df labels :
  (forall l, In l labels -> In l (names df)) ->
  drop df labels = Ok (drop_labels df labels).
Proof.
  intros H. unfold drop.
  replace (List.find _ labels) with (@None string); [reflexivity|].
  symmetry. apply find_none_iff. intros l Hl.
  apply H, has_label_In in Hl. now rewrite Hl.
Qed.

Lemma drop_labels_nil df : drop_labels df [] = df.
Proof.
  destruct df as [n cols]. unfold drop_labels. simpl. f_equal.
  apply filter_all. reflexivity.
Qed.

Lemma In_columns_names c s df : In (c, s) (columns df) -> In c (names df).
Proof. intros H. unfold names. change c with (fst (c, s)). now apply in_map. Qed.

Lemma In_drop_labels c s df labels :
  In (c, s) (columns (drop_labels df labels)) <->
  In (c, s) (columns df) /\ ~ In c labels.
Proof.
  unfold drop_labels. simpl. rewrite filter_In. simpl.
  rewrite Bool.negb_true_iff, has_label_not_In. reflexivity.
Qed.

(** With distinct labels, a label determines its column. *)
Lemma NoDup_names_functional (cols : list (string * Series)) c s s' :
  NoDup (map fst cols) -> In (c, s) cols -> In (c, s') cols -> s = s'.
Proof.
  induction cols as [|[n x] cols IH]; simpl; intros Hnd H1 H2; [contradiction|].
  apply NoDup_cons in Hnd as [Hn Hnd].
  assert (Hin : forall y, In (n, y) cols -> n ∈ map fst cols).
  { intros y Hy. apply list_elem_of_In. change n with (fst (n, y)). now apply in_map. }
  destruct H1 as [H1|H1], H2 as [H2|H2].
  - congruence.
  - inversion H1; subst. exfalso. eauto.
  - inversion H2; subst. exfalso. eauto.
  - apply IH; auto.
Qed.

End PandasFacts.

(** ** The scaler: column pruning *)

Module GetDataFacts.
Import Pandas GetData PandasFacts Reference.

Lemma sparse_columns_names threshold df l :
  In l (sparse_columns threshold df) -> In l (names df).
Proof.
  unfold sparse_columns, names. rewrite !in_map_iff.
  intros (p & <- & Hp). apply filter_In in Hp as [Hp _]. eauto.
Qed.

Lemma constant_columns_names df l :
  In l (constant_columns df) -> In l (names df).
Proof.
  unfold constant_columns, names. rewrite !in_map_iff.
  intros (p & <- & Hp). apply filter_In in Hp as [Hp _]. eauto.
Qed.

Lemma report_ok n : n <> 0 -> report n = Ok tt.
Proof. destruct n; [congruence | reflexivity]. Qed.

Lemma columns_nonempty df : columns df <> [] -> length (columns df) <> 0.
Proof. destruct (columns df); simpl; congruence. Qed.

Lemma drop_sparse_columns_ok threshold df :
  columns df <> [] ->
  drop_sparse_columns threshold df
  = Ok (drop_labels df (sparse_columns threshold df)).
Proof.
  intros H. unfold drop_sparse_columns.
  rewrite report_ok by now apply columns_nonempty.
  apply drop_ok, sparse_columns_names.
Qed.

Lemma drop_constant_columns_ok df :
  columns df <> [] ->
  drop_constant_columns df = Ok (drop_labels df (constant_columns df)).
Proof.
  intros H. unfold drop_constant_columns.
  rewrite report_ok by now apply columns_nonempty.
  apply drop_ok, constant_columns_names.
Qed.

Lemma drop_sparse_columns_no_column threshold df :
  columns df = [] -> drop_sparse_columns threshold df = Raise ZeroDivisionError.
Proof. intros H. unfold drop_sparse_columns. now rewrite H. Qed.

Lemma drop_constant_columns_no_column df :
  columns df = [] -> drop_constant_columns df = Raise ZeroDivisionError.
Proof. intros H. unfold drop_constant_columns. now rewrite H. Qed.

Lemma In_sparse_columns threshold df c s :
  In (c, s) (columns df) -> exceeds threshold (isna_fraction df s) = true ->
  In c (sparse_columns threshold df).
Proof.
  intros Hin Hex. unfold sparse_columns. apply in_map_iff.
  exists (c, s). split; [reflexivity|]. apply filter_In. auto.
Qed.

Lemma In_constant_columns df c s :
  In (c, s) (columns df) -> nunique s = 1 -> In c (constant_columns df).
Proof.
  intros Hin Hex. unfold constant_columns. apply in_map_iff.
  exists (c, s). split; [reflexivity|]. apply filter_In. simpl.
  split; [assumption|]. now apply Nat.eqb_eq.
Qed.

(** After a drop, nothing that is left is sparse (resp. constant). *)
Lemma sparse_columns_after_drop threshold df :
  sparse_columns threshold (drop_labels df (sparse_columns threshold df)) = [].
Proof.
  unfold sparse_columns at 1.
  replace (List.filter _ _) with (@nil (string * Series)); [reflexivity|].
  symmetry. apply filter_nil_iff. intros [c s] Hin.
  apply In_drop_labels in Hin as [Hin Hout].
  destruct (exceeds _ _) eqn:Hex; [|reflexivity].
  exfalso. apply Hout. eapply In_sparse_columns; eauto.
Qed.

Lemma constant_columns_after_drop df :
  constant_columns (drop_labels df (constant_columns df)) = [].
Proof.
  unfold constant_columns at 1.
  replace (List.filter _ _) with (@nil (string * Series)); [reflexivity|].
  symmetry. apply filter_nil_iff. intros [c s] Hin.
  apply In_drop_labels in Hin as [Hin Hout]. simpl.
  destruct (Nat.eqb _ _) eqn:Hex; [|reflexivity].
  exfalso. apply Hout. eapply In_constant_columns; eauto.
  now apply Nat.eqb_eq.
Qed.

Lemma In_select_feature_columns df target c :
  In c (select_feature_columns df target)
  <-> c <> target /\ c <> "ID"
      /\ exists s, In (c, s) (columns df) /\ 1 < length (unique s).
Proof.
  unfold select_feature_columns. rewrite in_map_iff. split.
  - intros ([c' s] & <- & Hin). apply filter_In in Hin as [Hin Hp]. simpl in *.
    apply andb_prop in Hp as [Hp Hu]. apply andb_prop in Hp as [Ht Hid].
    apply Bool.negb_true_iff, String.eqb_neq in Ht, Hid.
    apply Nat.ltb_lt in Hu. eauto 6.
  - intros (Ht & Hid & s & Hin & Hu). exists (c, s). split; [reflexivity|].
    apply filter_In. split; [assumption|]. simpl.
    apply String.eqb_neq in Ht, Hid. rewrite Ht, Hid. simpl.
    now apply Nat.ltb_lt.
Qed.

(** The comparison [fraction > threshold] of line 89, read on rationals. *)
Lemma exceeds_missing_fraction threshold df s :
  (0 <= threshold)%Q ->
  exceeds threshold (isna_fraction df s) = true
  <-> (threshold < missing_fraction df s)%Q.
Proof.
  intros Hthr. unfold isna_fraction, missing_fraction.
  destruct (len df) as [|n] eqn:Hlen.
  - simpl. split; [discriminate|]. intros H. exfalso.
    unfold Qdiv, Qinv in H. simpl in H. rewrite Qmult_0_r in H.
    apply (Qlt_not_le _ _ H Hthr).
  - unfold exceeds. rewrite Bool.negb_true_iff.
    rewrite <- Bool.not_true_iff_false, Qle_bool_iff.
    split; [apply Qnot_le_lt | apply Qlt_not_le].
Qed.

(** A second application, on the result of a first: nothing is left to
    drop, so the frame comes back as it is when the message can be
    printed. *)
Lemma drop_sparse_columns_again threshold df df1 :
  drop_sparse_columns threshold df = Ok df1 ->
  drop_sparse_columns threshold df1
  = match columns df1 with
    | [] => Raise ZeroDivisionError
    | _ :: _ => Ok df1
    end.
Proof.
  intros H.
  assert (Hsome : columns df <> [])
    by (intros E; rewrite drop_sparse_columns_no_column in H by exact E;
        discriminate).
  rewrite drop_sparse_columns_ok in H by exact Hsome.
  injection H as <-.
  destruct (columns (drop_labels df (sparse_columns threshold df))) eqn:E.
  - now apply drop_sparse_columns_no_column.
  - rewrite drop_sparse_columns_ok by (rewrite E; discriminate).
    now rewrite sparse_columns_after_drop, drop_labels_nil.
Qed.

Lemma drop_constant_columns_again df df1 :
  drop_constant_columns df = Ok df1 ->
  drop_constant_columns df1
  = match columns df1 with
    | [] => Raise ZeroDivisionError
    | _ :: _ => Ok df1
    end.
Proof.
  intros H.
  assert (Hsome : columns df <> [])
    by (intros E; rewrite drop_constant_columns_no_column in H by exact E;
        discriminate).
  rewrite drop_constant_columns_ok in H by exact Hsome.
  injection H as <-.
  destruct (columns (drop_labels df (constant_columns df))) eqn:E.
  - now apply drop_constant_columns_no_column.
  - rewrite drop_constant_columns_ok by (rewrite E; discriminate).
    now rewrite constant_columns_after_drop, drop_labels_nil.
Qed.

(** C9. Pruning twice is pruning once only while a column is left.  When
    [drop_sparse_columns] (resp. [drop_constant_columns]) has returned a
    frame, applying it to that frame returns the frame unchanged if it has
    a column, and raises [ZeroDivisionError] (the percentage of line 90,
    resp. 96) if it has none.  The second case happens: every column of
    [Auxiliary.all_sparse] is sparse and the one column of
    [Auxiliary.all_constant] is constant; one application returns the
    frame without columns, the second raises. *)
Theorem cleaning_twice_raises_when_no_column_is_left :
  (forall threshold df df1,
      drop_sparse_columns threshold df = Ok df1 ->
      drop_sparse_columns threshold df1
      = match columns df1 with
        | [] => Raise ZeroDivisionError
        | _ :: _ => Ok df1
        end)
  /\ (forall df df1,
         drop_constant_columns df = Ok df1 ->
         drop_constant_columns df1
         = match columns df1 with
           | [] => Raise ZeroDivisionError
           | _ :: _ => Ok df1
           end)
  /\ (drop_sparse_columns 0.2 Auxiliary.all_sparse = Ok (mkDF 2 [])
      /\ drop_sparse_columns 0.2 (mkDF 2 []) = Raise ZeroDivisionError)
  /\ (drop_constant_columns Auxiliary.all_constant = Ok (mkDF 2 [])
      /\ drop_constant_columns (mkDF 2 []) = Raise ZeroDivisionError).
Proof.
  split; [exact drop_sparse_columns_again|].
  split; [exact drop_constant_columns_again|].
  split; split; reflexivity.
Qed.

(** C6. With the threshold 0.2 of [prepare_data], on a frame that has a
    column (the percentage of line 90 divides by their number),
    [drop_sparse_columns] returns, keeps a column exactly when its fraction
    of missing values does not exceed 0.2, and adds none: a column whose
    fraction is 0.2 stays, a column whose fraction is 0.2001 goes. *)
Theorem drop_sparse_columns_threshold (df : DataFrame) :
  well_formed df ->
  columns df <> [] ->
  exists df',
    drop_sparse_columns 0.2 df = Ok df'
    /\ (forall c s, In (c, s) (columns df') -> In (c, s) (columns df))
    /\ (forall c s, In (c, s) (columns df) ->
          (In (c, s) (columns df') <-> ~ (0.2 < missing_fraction df s)%Q))
    /\ (forall c s, In (c, s) (columns df) ->
          (missing_fraction df s == 0.2)%Q -> In (c, s) (columns df'))
    /\ (forall c s, In (c, s) (columns df) ->
          (missing_fraction df s == 0.2001)%Q -> ~ In (c, s) (columns df')).
Proof.
  intros [Hnd _] Hsome.
  exists (drop_labels df (sparse_columns 0.2 df)).
  assert (Hiff : forall c s, In (c, s) (columns df) ->
            (In (c, s) (columns (drop_labels df (sparse_columns 0.2 df)))
             <-> ~ (0.2 < missing_fraction df s)%Q)).
  { intros c s Hin. rewrite In_drop_labels.
    rewrite <- (exceeds_missing_fraction 0.2 df s) by discriminate.
    split.
    - intros [_ Hout] Hex. apply Hout. eapply In_sparse_columns; eauto.
    - intros Hex. split; [assumption|]. intros Hsp.
      unfold sparse_columns in Hsp. apply in_map_iff in Hsp as ([c' s'] & Hc & Hp).
      simpl in Hc. subst c'. apply filter_In in Hp as [Hp Hex']. simpl in Hex'.
      assert (s = s') by (eapply NoDup_names_functional; eauto).
      subst s'. contradiction. }
  split; [now apply drop_sparse_columns_ok|].
  split; [intros c s Hin; now apply In_drop_labels in Hin|].
  split; [exact Hiff|].
  split.
  - intros c s Hin Heq. apply Hiff; [assumption|]. rewrite Heq. discriminate.
  - intros c s Hin Heq. rewrite Hiff by assumption. rewrite Heq.
    intros H. apply H. reflexivity.
Qed.

End GetDataFacts.

(** ** The scaler: [scale_data] *)

Module ScalingFacts.
Import Pandas GetData PandasFacts Reference GetDataFacts.

Lemma assoc_None c (cols : list (string * Series)) :
  assoc c cols = None <-> ~ In c (map fst cols).
Proof.
  induction cols as [|[n s] cols IH]; simpl.
  - tauto.
  - destruct (String.eqb n c) eqn:E.
    + apply String.eqb_eq in E. split; [discriminate | tauto].
    + apply String.eqb_neq in E. rewrite IH. tauto.
Qed.

Lemma assoc_Some_names c (cols : list (string * Series)) s :
  assoc c cols = Some s -> In c (map fst cols).
Proof.
  intros H. destruct (in_dec String.string_dec c (map fst cols)) as [Hin|Hout].
  - assumption.
  - apply assoc_None in Hout. congruence.
Qed.

Lemma names_assoc c (cols : list (string * Series)) :
  In c (map fst cols) -> exists s, assoc c cols = Some s.
Proof.
  intros Hin. destruct (assoc c cols) as [s|] eqn:E; [eauto|].
  apply assoc_None in E. contradiction.
Qed.

Lemma assoc_set_column_eq c s cols : assoc c (set_column c s cols) = Some s.
Proof.
  induction cols as [|[n x] cols IH]; simpl.
  - now rewrite String.eqb_refl.
  - destruct (String.eqb n c) eqn:E; simpl; now rewrite E.
Qed.

Lemma assoc_set_column_ne c c' s cols :
  c <> c' -> assoc c' (set_column c s cols) = assoc c' cols.
Proof.
  intros Hne. induction cols as [|[n x] cols IH]; simpl.
  - apply String.eqb_neq in Hne. now rewrite Hne.
  - destruct (String.eqb n c) eqn:E; simpl.
    + apply String.eqb_eq in E. subst n.
      apply String.eqb_neq in Hne. now rewrite Hne.
    + now rewrite IH.
Qed.

Lemma names_set_column c s cols :
  In c (map fst cols) -> map fst (set_column c s cols) = map fst cols.
Proof.
  induction cols as [|[n x] cols IH]; simpl; [contradiction|].
  intros [->|Hin].
  - now rewrite String.eqb_refl.
  - destruct (String.eqb n c); simpl; [reflexivity|]. now rewrite IH.
Qed.

Lemma getitem_Ok df c s : getitem df c = Ok s <-> assoc c (columns df) = Some s.
Proof.
  unfold getitem. destruct (assoc c (columns df)); split; congruence.
Qed.

Lemma getitem_names df c : In c (names df) -> exists s, getitem df c = Ok s.
Proof.
  intros H. apply names_assoc in H as [s Hs]. exists s. now apply getitem_Ok.
Qed.

Section WithSqrt.
Variable sqrt : Q -> Q.

(** One turn of the loop of [scale_data], on a heap where [data] holds
    [td]. *)
Lemma scale_loop_cons data col rest train_data (h : heap) td :
  h !! data = Some td ->
  scale_loop sqrt data (col :: rest) train_data h =
  match getitem td col with
  | Raise e => (Raise e, h)
  | Ok x =>
      match h !! train_data with
      | None => (Raise (TypeError "dangling reference"), h)
      | Some t =>
          match getitem t col with
          | Raise e => (Raise e, h)
          | Ok r =>
              scale_loop sqrt data rest train_data
                (<[data := setitem td col (standardize (mean r) (std sqrt r) x)]> h)
          end
      end
  end.
Proof.
  intros Hd. cbn [scale_loop]. unfold bind, deref, lift, assign. rewrite Hd.
  destruct (getitem td col); [|reflexivity].
  destruct (h !! train_data); [|reflexivity].
  destruct (getitem _ col); reflexivity.
Qed.

(** Whatever the outcome, only the object [data] changes, and in it only
    the listed columns. *)
Lemma scale_loop_frame fc : forall data train_data (h : heap) td,
  h !! data = Some td ->
  exists td',
    snd (scale_loop sqrt data fc train_data h) = <[data := td']> h
    /\ names td' = names td
    /\ len td' = len td
    /\ (forall c, ~ In c fc -> getitem td' c = getitem td c).
Proof.
  induction fc as [|col rest IH]; intros data train_data h td Hd.
  - exists td. simpl. rewrite list_insert_id by assumption. auto.
  - assert (Hkeep : exists td', h = <[data := td']> h /\ names td' = names td
                     /\ len td' = len td
                     /\ (forall c, ~ In c (col :: rest) -> getitem td' c = getitem td c)).
    { exists td. rewrite list_insert_id by assumption. auto. }
    rewrite (scale_loop_cons _ _ _ _ _ _ Hd).
    destruct (getitem td col) as [x|e] eqn:Hx; [|exact Hkeep].
    destruct (h !! train_data) as [t|]; [|exact Hkeep].
    destruct (getitem t col) as [r|e]; [|exact Hkeep].
    set (td1 := setitem td col _).
    assert (Hd1 : <[data := td1]> h !! data = Some td1).
    { apply list_lookup_insert_eq. eapply lookup_lt_Some; eauto. }
    destruct (IH data train_data _ td1 Hd1) as (td' & Hs & Hn & Hl & Hc).
    exists td'. rewrite Hs, list_insert_insert_eq.
    split; [reflexivity|]. split; [|split].
    + rewrite Hn. unfold names, td1. simpl. apply names_set_column.
      apply getitem_Ok in Hx. eapply assoc_Some_names; eauto.
    + now rewrite Hl.
    + intros c Hout. rewrite Hc by (intros ?; apply Hout; now right).
      unfold getitem, td1. simpl. rewrite assoc_set_column_ne; [reflexivity|].
      intros ->. apply Hout. now left.
Qed.

(** The loop returns normally when every listed column is there to read. *)
Lemma scale_loop_returns fc : forall data train_data (h : heap) td,
  h !! data = Some td ->
  (forall c, In c fc -> In c (names td)) ->
  (train_data = data
   \/ exists tr, h !! train_data = Some tr /\ forall c, In c fc -> In c (names tr)) ->
  fst (scale_loop sqrt data fc train_data h) = Ok tt.
Proof.
  induction fc as [|col rest IH]; intros data train_data h td Hd Hfc Href.
  - reflexivity.
  - rewrite (scale_loop_cons _ _ _ _ _ _ Hd).
    destruct (getitem_names td col) as [x Hx]; [apply Hfc; now left|].
    rewrite Hx.
    assert (Hlt : data < length h) by (eapply lookup_lt_Some; eauto).
    destruct Href as [->|(tr & Hr & Hrc)].
    + rewrite Hd, Hx.
      eapply IH.
      * now apply list_lookup_insert_eq.
      * intros c Hc. unfold names. simpl. rewrite names_set_column.
        -- apply Hfc. now right.
        -- apply getitem_Ok in Hx. eapply assoc_Some_names; eauto.
      * now left.
    + rewrite Hr. destruct (getitem_names tr col) as [r Hr']; [apply Hrc; now left|].
      rewrite Hr'.
      destruct (decide (train_data = data)) as [->|Hne].
      * eapply IH.
        -- now apply list_lookup_insert_eq.
        -- intros c Hc. unfold names. simpl. rewrite names_set_column.
           ++ apply Hfc. now right.
           ++ apply getitem_Ok in Hx. eapply assoc_Some_names; eauto.
        -- now left.
      * eapply IH.
        -- now apply list_lookup_insert_eq.
        -- intros c Hc. unfold names. simpl. rewrite names_set_column.
           ++ apply Hfc. now right.
           ++ apply getitem_Ok in Hx. eapply assoc_Some_names; eauto.
        -- right. exists tr. split.
           ++ rewrite list_lookup_insert_ne by congruence. assumption.
           ++ intros c Hc. apply Hrc. now right.
Qed.

(** What each listed column becomes; the reference may be [data] itself. *)
Lemma scale_loop_value fc : NoDup fc -> forall data train_data (h : heap) td tr,
  h !! data = Some td ->
  h !! train_data = Some tr ->
  (forall c, In c fc -> In c (names td) /\ In c (names tr)) ->
  exists td',
    scale_loop sqrt data fc train_data h = (Ok tt, <[data := td']> h)
    /\ (forall c, ~ In c fc -> getitem td' c = getitem td c)
    /\ (forall c x r, In c fc -> getitem td c = Ok x -> getitem tr c = Ok r ->
          getitem td' c = Ok (standardize (mean r) (std sqrt r) x)).
Proof.
  induction fc as [|col rest IH]; intros Hnd data train_data h td tr Hd Hr Hfc.
  - exists td. simpl. unfold ret. rewrite list_insert_id by assumption.
    split; [reflexivity|]. split; [reflexivity|]. intros c x r [].
  - apply NoDup_cons in Hnd as [Hcol Hnd]. rewrite list_elem_of_In in Hcol.
    rewrite (scale_loop_cons _ _ _ _ _ _ Hd).
    destruct (Hfc col (or_introl eq_refl)) as [Hcd Hcr].
    destruct (getitem_names td col Hcd) as [x0 Hx0].
    destruct (getitem_names tr col Hcr) as [r0 Hr0].
    rewrite Hx0, Hr, Hr0.
    set (td1 := setitem td col _).
    assert (Hlt : data < length h) by (eapply lookup_lt_Some; eauto).
    assert (Hd1 : <[data := td1]> h !! data = Some td1)
      by now apply list_lookup_insert_eq.
    assert (Hn1 : names td1 = names td).
    { unfold names, td1. simpl. apply names_set_column.
      apply getitem_Ok in Hx0. eapply assoc_Some_names; eauto. }
    assert (Hg1 : forall c, c <> col -> getitem td1 c = getitem td c).
    { intros c Hne. unfold getitem, td1. simpl.
      rewrite assoc_set_column_ne; [reflexivity | congruence]. }
    assert (Href : exists tr1, <[data := td1]> h !! train_data = Some tr1
                   /\ names tr1 = names tr
                   /\ forall c, c <> col -> getitem tr1 c = getitem tr c).
    { destruct (decide (train_data = data)) as [->|Hne].
      - exists td1. assert (tr = td) by congruence. subst tr. auto.
      - exists tr. rewrite list_lookup_insert_ne by congruence. auto. }
    destruct Href as (tr1 & Hr1 & Hnr1 & Hgr1).
    destruct (IH Hnd data train_data _ td1 tr1 Hd1 Hr1) as (td' & Hrun & Hout & Hin).
    { intros c Hc. rewrite Hn1, Hnr1. apply Hfc. now right. }
    exists td'. rewrite Hrun, list_insert_insert_eq.
    split; [reflexivity|]. split.
    + intros c Hc. rewrite Hout by (intros ?; apply Hc; now right).
      apply Hg1. intros ->. apply Hc. now left.
    + intros c x r [<-|Hc] Hx Hrr.
      * rewrite Hout by assumption. unfold getitem, td1. simpl.
        rewrite assoc_set_column_eq. congruence.
      * assert (c <> col) by congruence.
        apply Hin; [assumption | now rewrite Hg1 | now rewrite Hgr1].
Qed.

(** With a reference that is another object, the loop computes
    [fit_and_scale]. *)
Lemma scale_loop_fit_and_scale fc : forall data train_data (h : heap) td tr,
  data <> train_data ->
  h !! data = Some td ->
  h !! train_data = Some tr ->
  (forall c, In c fc -> In c (names td) /\ In c (names tr)) ->
  scale_loop sqrt data fc train_data h
  = (Ok tt, <[data := fit_and_scale sqrt td fc tr]> h).
Proof.
  induction fc as [|col rest IH]; intros data train_data h td tr Hne Hd Hr Hfc.
  - simpl. unfold ret. now rewrite list_insert_id.
  - rewrite (scale_loop_cons _ _ _ _ _ _ Hd).
    destruct (Hfc col (or_introl eq_refl)) as [Hcd Hcr].
    destruct (getitem_names td col Hcd) as [x0 Hx0].
    destruct (getitem_names tr col Hcr) as [r0 Hr0].
    rewrite Hx0, Hr, Hr0.
    assert (Hlt : data < length h) by (eapply lookup_lt_Some; eauto).
    rewrite (IH data train_data _
               (setitem td col (standardize (mean r0) (std sqrt r0) x0)) tr Hne).
    + rewrite list_insert_insert_eq. unfold fit_and_scale. simpl.
      replace (scale_column sqrt tr td col)
        with (setitem td col (standardize (mean r0) (std sqrt r0) x0));
        [reflexivity|].
      unfold scale_column. now rewrite Hx0, Hr0.
    + now apply list_lookup_insert_eq.
    + now rewrite list_lookup_insert_ne.
    + intros c Hc. unfold names at 1. simpl. rewrite names_set_column.
      * apply Hfc. now right.
      * apply getitem_Ok in Hx0. eapply assoc_Some_names; eauto.
Qed.

(** Selecting rows commutes with scaling against a fixed reference. *)
Lemma standardize_take m s idx x :
  standardize m s (take idx x) = take idx (standardize m s x).
Proof.
  unfold standardize, take. rewrite map_map. apply map_ext. intros i.
  change NaN with ((fun v => div (sub v m) s) NaN) at 2.
  now rewrite map_nth.
Qed.

Lemma assoc_iloc c idx cols :
  assoc c (map (fun p : string * Series => (fst p, take idx (snd p))) cols)
  = option_map (take idx) (assoc c cols).
Proof.
  induction cols as [|[n s] cols IH]; simpl; [reflexivity|].
  destruct (String.eqb n c); [reflexivity | apply IH].
Qed.

Lemma set_column_iloc c idx v cols :
  set_column c (take idx v)
    (map (fun p : string * Series => (fst p, take idx (snd p))) cols)
  = map (fun p : string * Series => (fst p, take idx (snd p)))
        (set_column c v cols).
Proof.
  induction cols as [|[n s] cols IH]; simpl; [reflexivity|].
  destruct (String.eqb n c); simpl; [reflexivity | now rewrite IH].
Qed.

Lemma scale_column_iloc tr td c idx :
  scale_column sqrt tr (iloc td idx) c = iloc (scale_column sqrt tr td c) idx.
Proof.
  unfold scale_column, getitem. simpl. rewrite assoc_iloc.
  destruct (assoc c (columns td)) as [x|]; simpl; [|reflexivity].
  destruct (assoc c (columns tr)) as [r|]; simpl; [|reflexivity].
  unfold setitem, iloc. simpl. f_equal.
  rewrite standardize_take. apply set_column_iloc.
Qed.

Lemma fit_and_scale_iloc fc : forall td tr idx,
  fit_and_scale sqrt (iloc td idx) fc tr = iloc (fit_and_scale sqrt td fc tr) idx.
Proof.
  unfold fit_and_scale.
  induction fc as [|c fc IH]; intros td tr idx; simpl; [reflexivity|].
  now rewrite scale_column_iloc, IH.
Qed.

Lemma names_iloc td idx : names (iloc td idx) = names td.
Proof. unfold names, iloc. simpl. rewrite map_map. reflexivity. Qed.

End WithSqrt.

(** C8. [scale_data] replaces every value of every listed column by
    (value - mean of the column in the reference) / (standard deviation of
    the column in the reference) -- the reference may even be the table
    itself -- and, the reference being another table, scaling a selection
    of the rows (any permutation, any duplication: the rows at positions
    [idx]) gives the same selection of the scaled rows. *)
Theorem scale_data_standardizes (sqrt : Q -> Q) (h : heap)
        (data train_data : loc) (td tr : DataFrame) (fc : list string) :
  h !! data = Some td ->
  h !! train_data = Some tr ->
  NoDup fc ->
  (forall c, In c fc -> In c (names td) /\ In c (names tr)) ->
  exists td',
    scale_data sqrt data fc train_data h = (Ok data, <[data := td']> h)
    /\ (forall c x r, In c fc -> getitem td c = Ok x -> getitem tr c = Ok r ->
          getitem td' c
          = Ok (map (fun v => div (sub v (mean r)) (std sqrt r)) x))
    /\ (data <> train_data -> forall idx,
          scale_data sqrt data fc train_data (<[data := iloc td idx]> h)
          = (Ok data, <[data := iloc td' idx]> h)).
Proof.
  intros Hd Hr Hnd Hfc.
  destruct (scale_loop_value sqrt fc Hnd data train_data h td tr Hd Hr Hfc)
    as (td' & Hrun & _ & Hval).
  assert (Hlt : data < length h) by (eapply lookup_lt_Some; eauto).
  exists td'. split; [|split].
  - unfold scale_data, bind. now rewrite Hrun.
  - exact Hval.
  - intros Hne idx.
    assert (Htd' : td' = fit_and_scale sqrt td fc tr).
    { rewrite (scale_loop_fit_and_scale sqrt fc data train_data h td tr) in Hrun
        by assumption.
      injection Hrun as Hrun.
      apply (f_equal (fun l : heap => l !! data)) in Hrun.
      rewrite !list_lookup_insert_eq in Hrun by assumption. congruence. }
    unfold scale_data, bind.
    rewrite (scale_loop_fit_and_scale sqrt fc data train_data _ (iloc td idx) tr).
    + rewrite list_insert_insert_eq, fit_and_scale_iloc, Htd'. reflexivity.
    + assumption.
    + now apply list_lookup_insert_eq.
    + rewrite list_lookup_insert_ne by assumption. assumption.
    + intros c Hc. rewrite names_iloc. now apply Hfc.
Qed.

(** C10. Whatever [scale_data] does to the table [data], the columns that
    are not listed in [feature_columns] are as they were, the labels and
    the number of rows too; no other object changes, none is created, and
    the reference returned is [data] itself.  [ID] and [results] are never
    in the list that [prepare_data] selects, so they are among the columns
    left alone. *)
Theorem scale_data_frame_in_place (sqrt : Q -> Q) (h : heap)
        (data train_data : loc) (fc : list string) (td : DataFrame) :
  h !! data = Some td ->
  exists td',
    snd (scale_data sqrt data fc train_data h) = <[data := td']> h
    /\ names td' = names td
    /\ len td' = len td
    /\ (forall c, ~ In c fc -> getitem td' c = getitem td c)
    /\ (forall l, fst (scale_data sqrt data fc train_data h) = Ok l -> l = data)
    /\ (forall df, ~ In "ID" (select_feature_columns df "results")
                   /\ ~ In "results" (select_feature_columns df "results")).
Proof.
  intros Hd.
  assert (Hsel : forall df, ~ In "ID" (select_feature_columns df "results")
                            /\ ~ In "results" (select_feature_columns df "results")).
  { intros df. rewrite !In_select_feature_columns. tauto. }
  destruct (scale_loop_frame sqrt fc data train_data h td Hd)
    as (td' & Hs & Hn & Hl & Hc).
  exists td'. unfold scale_data, bind.
  destruct (scale_loop sqrt data fc train_data h) as [[[]|e] h'] eqn:Hrun;
    simpl in *; subst h'.
  - repeat (split; [solve [auto]|]). split; [|exact Hsel].
    intros l [= <-]. reflexivity.
  - repeat (split; [solve [auto]|]). split; [|exact Hsel].
    intros l [=].
Qed.

End ScalingFacts.

(** ** The scaler: [prepare_data] and [get_data] *)

Module PipelineFacts.
Import Pandas GetData PandasFacts Reference GetDataFacts ScalingFacts.

Lemma filter_filter {A} (f g : A -> bool) l :
  List.filter f (List.filter g l) = List.filter (fun x => g x && f x) l.
Proof.
  induction l as [|a l IH]; simpl; [reflexivity|].
  destruct (g a); simpl; [destruct (f a)|]; now rewrite IH.
Qed.

Lemma filter_length_le {A} (f : A -> bool) l :
  length (List.filter f l) <= length l.
Proof.
  induction l as [|a l IH]; simpl; [lia|]. destruct (f a); simpl; lia.
Qed.

Lemma filter_split_length {A} (f : A -> bool) l :
  length l
  = length (List.filter f l) + length (List.filter (fun x => negb (f x)) l).
Proof.
  induction l as [|a l IH]; simpl; [reflexivity|].
  destruct (f a); simpl; lia.
Qed.

(** [unique] and the missing marker: dropping it before or after is the
    same, and it is listed at most once. *)
Lemma unique_notna s :
  List.filter notna (unique s) = unique (List.filter notna s).
Proof.
  induction s as [|c s IH]; simpl; [reflexivity|].
  destruct c as [|q]; simpl.
  - rewrite filter_filter, <- IH. apply filter_ext. intros [|x]; reflexivity.
  - f_equal. rewrite <- IH, !filter_filter. apply filter_ext.
    intros x. apply Bool.andb_comm.
Qed.

Lemma unique_isna s : length (List.filter isna (unique s)) <= 1.
Proof.
  induction s as [|c s IH]; simpl; [lia|].
  destruct c as [|q]; simpl.
  - rewrite filter_filter.
    replace (List.filter _ (unique s)) with (@nil cell); [simpl; lia|].
    symmetry. apply filter_nil_iff. intros [|x] _; reflexivity.
  - rewrite filter_filter.
    replace (List.filter _ (unique s))
      with (List.filter (fun d => negb (cell_eqb (Num q) d)) (List.filter isna (unique s))).
    + etransitivity; [apply filter_length_le | exact IH].
    + rewrite filter_filter. apply filter_ext. intros x. apply Bool.andb_comm.
Qed.

Lemma nunique_le_unique s : nunique s <= length (unique s).
Proof.
  unfold nunique. rewrite <- unique_notna. apply filter_length_le.
Qed.

Lemma unique_nunique s :
  1 < length (unique s) -> nunique s <> 1 -> 1 < nunique s.
Proof.
  intros Hu Hn. unfold nunique in *. rewrite <- unique_notna in *.
  pose proof (unique_isna s) as Hna.
  rewrite (filter_split_length notna (unique s)) in Hu.
  replace (List.filter (fun x => negb (notna x)) (unique s))
    with (List.filter isna (unique s)) in Hu.
  - lia.
  - apply filter_ext. intros [|x]; reflexivity.
Qed.

Lemma lookup_alloc (h : heap) (df : DataFrame) :
  (h ++ [df]) !! length h = Some df.
Proof. now apply list_lookup_middle. Qed.

Lemma names_nonempty df c : In c (names df) -> length (columns df) <> 0.
Proof. unfold names. destruct (columns df); simpl; [tauto | lia]. Qed.

Lemma has_a_column df c : In c (names df) -> columns df <> [].
Proof. unfold names. destruct (columns df); simpl; [tauto | discriminate]. Qed.

Lemma names_drop_labels df labels c :
  In c (names (drop_labels df labels)) <-> In c (names df) /\ ~ In c labels.
Proof.
  unfold names. rewrite !in_map_iff. split.
  - intros ([c' s] & <- & Hin). apply In_drop_labels in Hin as [Hin Hout].
    split; [|assumption]. exists (c', s). auto.
  - intros (([c' s] & <- & Hin) & Hout). exists (c', s).
    split; [reflexivity|]. apply In_drop_labels. auto.
Qed.

Lemma names_dropna df : names (dropna df) = names df.
Proof. apply names_iloc. Qed.

(** A table scaled against itself, as [prepare_data] does it. *)
Lemma scale_data_self sqrt (h : heap) l td fc :
  h !! l = Some td ->
  (forall c, In c fc -> In c (names td)) ->
  exists td', scale_data sqrt l fc l h = (Ok l, <[l := td']> h).
Proof.
  intros Hl Hfc.
  destruct (scale_loop_frame sqrt fc l l h td Hl) as (td' & Hs & _).
  pose proof (scale_loop_returns sqrt fc l l h td Hl Hfc (or_introl eq_refl)) as Hr.
  exists td'. unfold scale_data, bind.
  destruct (scale_loop sqrt l fc l h) as [r h']. simpl in *. subst. reflexivity.
Qed.

Ltac run :=
  cbv beta iota zeta delta
    [prepare_data get_data load_data read_parquet self_data
     self_feature_columns set_data set_feature_columns bind gets modify ret
     raise lift on_heap alloc deref files objects self train data
     feature_columns target_column __init__ fst snd parquet_of].

(** The whole run of [prepare_data] on a table that has rows and a column
    that is not sparse. *)
Lemma prepare_data_run sqrt fs (h : heap) tr df :
  fs !! parquet_of tr = Some df ->
  len df <> 0 ->
  (exists c, In c (names df) /\ ~ In c (sparse_columns 0.2 df)) ->
  let df1 := drop_labels df (sparse_columns 0.2 df) in
  let df2 := drop_labels df1 (constant_columns df1) in
  let fc := List.filter (fun col => has_label col (names df2))
                        (select_feature_columns df "results") in
  exists td',
    prepare_data sqrt (mkWorld fs h (__init__ tr))
    = (Ok tt,
       mkWorld fs (h ++ [df; df1; df2; td'])
               (mkScaler tr (Some (length h + 3)) (Some fc) "results")).
Proof.
  intros Hf Hlen (c0 & Hc0 & Hc0') df1 df2 fc.
  assert (H1 : drop_sparse_columns 0.2 df = Ok df1)
    by (eapply drop_sparse_columns_ok, has_a_column; eauto).
  assert (H2 : drop_constant_columns df1 = Ok df2).
  { eapply drop_constant_columns_ok, has_a_column.
    apply names_drop_labels. eauto. }
  assert (H3 : report (len df2) = Ok tt) by now apply report_ok.
  set (H := (((h ++ [df]) ++ [df1]) ++ [df2]) ++ [dropna df2]).
  set (l3 := length (((h ++ [df]) ++ [df1]) ++ [df2])).
  destruct (scale_data_self sqrt H l3 (dropna df2) fc) as [td' Hrun].
  { apply lookup_alloc. }
  { intros c Hc. rewrite names_dropna. apply filter_In in Hc as [_ Hc].
    now apply has_label_In. }
  exists td'. run.
  destruct tr; cbv [parquet_of] in Hf; rewrite Hf; run;
    rewrite lookup_alloc; run; rewrite H1; run;
    rewrite H2; run; rewrite H3; fold H l3 fc; rewrite Hrun; run;
    (f_equal; f_equal;
     [ unfold H; rewrite insert_app_r_alt by (unfold l3; lia);
       replace (l3 - _) with 0 by (unfold l3; lia); simpl;
       now rewrite <- !app_assoc
     | unfold l3; rewrite !length_app; simpl; f_equal; f_equal; lia ]).
Qed.

(** C7. The feature column list is chosen on the table as it was loaded,
    before any column is dropped: a column other than [ID] and [results]
    is chosen when its [unique()] has more than one entry.  After the two
    drops the list is only restricted to the labels that are left, and
    [prepare_data] returns with that list.  What is left in it are the
    columns that survive with more than one distinct non-missing value. *)
Theorem feature_columns_from_original_table
        (sqrt : Q -> Q) (fs : gmap string DataFrame) (h : heap)
        (tr : bool) (df : DataFrame) :
  fs !! parquet_of tr = Some df ->
  NoDup (names df) ->
  len df <> 0 ->
  (exists c, In c (names df) /\ ~ In c (sparse_columns 0.2 df)) ->
  exists w df1 df2,
    prepare_data sqrt (mkWorld fs h (__init__ tr)) = (Ok tt, w)
    /\ drop_sparse_columns 0.2 df = Ok df1
    /\ drop_constant_columns df1 = Ok df2
    /\ feature_columns (self w)
       = Some (List.filter (fun col => has_label col (names df2))
                           (select_feature_columns df "results"))
    /\ (forall c, In c (select_feature_columns df "results")
                  <-> c <> "results" /\ c <> "ID"
                      /\ exists s, In (c, s) (columns df)
                                   /\ 1 < length (unique s))
    /\ (forall c fc, feature_columns (self w) = Some fc ->
          (In c fc <-> c <> "results" /\ c <> "ID"
                       /\ exists s, In (c, s) (columns df2) /\ 1 < nunique s)).
Proof.
  intros Hf Hnd Hlen Hcol.
  destruct (prepare_data_run sqrt fs h tr df Hf Hlen Hcol) as [td' Hrun].
  set (df1 := drop_labels df (sparse_columns 0.2 df)) in *.
  set (df2 := drop_labels df1 (constant_columns df1)) in *.
  destruct Hcol as (c0 & Hc0 & Hc0').
  eexists _, df1, df2. split; [exact Hrun|].
  split; [eapply drop_sparse_columns_ok, has_a_column; eauto|].
  split.
  { eapply drop_constant_columns_ok, has_a_column.
    apply names_drop_labels. eauto. }
  split; [reflexivity|].
  split; [apply In_select_feature_columns|].
  intros c fc [= <-]. rewrite filter_In, In_select_feature_columns, has_label_In.
  split.
  - intros ((Ht & Hid & s & Hin & Hu) & Hc2).
    split; [assumption|]. split; [assumption|].
    unfold names in Hc2. apply in_map_iff in Hc2 as ([c' s'] & Hc' & Hin2).
    simpl in Hc'. subst c'. exists s'. split; [assumption|].
    apply In_drop_labels in Hin2 as [Hin1 Hconst].
    assert (Hin0 : In (c, s') (columns df)) by now apply In_drop_labels in Hin1.
    assert (s = s') by (eapply NoDup_names_functional; eauto). subst s'.
    apply unique_nunique; [assumption|].
    intros Hone. apply Hconst. eapply In_constant_columns; eauto.
  - intros (Ht & Hid & s & Hin2 & Hn).
    assert (Hin1 : In (c, s) (columns df1)) by now apply In_drop_labels in Hin2.
    assert (Hin0 : In (c, s) (columns df)) by now apply In_drop_labels in Hin1.
    split.
    + split; [assumption|]. split; [assumption|]. exists s.
      split; [assumption|]. pose proof (nunique_le_unique s). lia.
    + eapply In_columns_names; eauto.
Qed.

Ltac split_matches :=
  repeat match goal with
         | |- context [match ?x with _ => _ end] =>
             match x with
             | context [match _ with _ => _ end] => fail 1
             | _ => destruct x eqn:?; run
             end
         end.

(** In test mode nothing but the test file is read: two sets of files that
    agree on it give the same outcome. *)
Lemma get_data_test_mode_files sqrt (fs1 fs2 : gmap string DataFrame) (h : heap) :
  fs1 !! parquet_of false = fs2 !! parquet_of false ->
  exists r h' s,
    get_data sqrt (mkWorld fs1 h (__init__ false)) = (r, mkWorld fs1 h' s)
    /\ get_data sqrt (mkWorld fs2 h (__init__ false)) = (r, mkWorld fs2 h' s).
Proof.
  cbv [parquet_of]. intros Hf.
  remember (fs2 !! "data/prepared_data_test.parquet") as o eqn:Ho.
  run. rewrite Hf, <- ?Ho.
  destruct o as [df|]; run; [|eauto].
  rewrite lookup_alloc. run.
  repeat match goal with
         | |- context [match ?x with _ => _ end] =>
             match x with
             | context [match _ with _ => _ end] => fail 1
             | _ => destruct x eqn:?; run; rewrite ?Hf, <- ?Ho; run
             end
         end; eauto.
Qed.

(** C1 (what the code does instead).  With [train=False], [prepare_data]
    loads the test file, so the table [get_data] calls [train_data] is the
    cleaned and scaled test table: the training file has no influence on
    the outcome, whereas the test table decides which columns are scaled
    and with which statistics.  Of two test tables over the same matches,
    the one with a complete column [a] has it scaled, the one with a
    sparse [a] has no column scaled at all; the object handed to
    [scale_data] as [train_data] (the fifth allocated) holds the matches of
    the test table. *)
Theorem test_mode_statistics_come_from_the_test_table (sqrt : Q -> Q) :
  (forall (T1 T2 U : DataFrame) (h : heap),
      let run T :=
        get_data sqrt (mkWorld (Examples.parquet_files T U) h (__init__ false)) in
      fst (run T1) = fst (run T2)
      /\ objects (snd (run T1)) = objects (snd (run T2))
      /\ self (snd (run T1)) = self (snd (run T2)))
  /\ fst (get_data sqrt
            (mkWorld (Examples.parquet_files Examples.prepared Examples.test_complete)
                     [] (__init__ false)))
     = Ok (5, ["a"], "results")
  /\ fst (get_data sqrt
            (mkWorld (Examples.parquet_files Examples.prepared Examples.test_sparse)
                     [] (__init__ false)))
     = Ok (5, [], "results")
  /\ (exists reference,
        objects (snd (get_data sqrt
                        (mkWorld (Examples.parquet_files Examples.prepared
                                                         Examples.test_complete)
                                 [] (__init__ false)))) !! 4
        = Some reference
        /\ getitem reference "ID" = getitem Examples.test_complete "ID").
Proof.
  split; [|split; [|split]; [vm_compute; reflexivity ..|]].
  2:{ eexists. split; [vm_compute; reflexivity|]. reflexivity. }
  intros T1 T2 U h run.
  destruct (get_data_test_mode_files sqrt (Examples.parquet_files T1 U)
              (Examples.parquet_files T2 U) h) as (r & h' & s & H1 & H2).
  { reflexivity. }
  unfold run. rewrite H1, H2. auto.
Qed.

End PipelineFacts.

(** ** The aggregator *)

Module AggregatorFacts.
Import Pandas PrepareData PandasFacts Reference ScalingFacts.

Ltac prun :=
  cbv beta iota zeta delta
    [__init__ load_data prepare_data remove_columns remove_columns_loop
     mode_is_train get_frame read_csv getattr setattr as_str as_list as_frame
     py_bool bind gets modify ret raise lift files self fst snd].

Ltac attr :=
  repeat first
    [ rewrite lookup_insert_eq
    | rewrite lookup_insert_ne by discriminate
    | rewrite lookup_empty ].

Ltac split_matches :=
  repeat match goal with
         | |- context [match ?x with _ => _ end] =>
             match x with
             | context [match _ with _ => _ end] => fail 1
             | _ => destruct x eqn:?; prun
             end
         end.

(** *** [prepare_data] and the attribute [mode] *)

Lemma init_constructed path train save_to_excel cols fs w :
  __init__ path train save_to_excel cols (mkWorld fs ∅) = (Ok tt, w) ->
  constructed train w.
Proof.
  prun. attr. prun. destruct train; prun; split_matches; intros [= <-];
    unfold constructed; prun; attr; repeat split; eauto.
Qed.

Lemma prepare_data_constructed train w :
  constructed train w ->
  exists w',
    prepare_data w = (Raise (AttributeError "mode"), w')
    /\ self w' !! "data" = Some PNone
    /\ self w' !! "mode" = None.
Proof.
  intros (Hmode & _ & Hdata & [cols Hcols] & [ht Hht] & [hp Hhp]
          & [at_ Hat] & [ap Hap]).
  destruct w as [fs s]. prun. cbn [self] in *.
  rewrite Hcols. prun. rewrite Hht. prun. attr.
  rewrite Hhp. prun. attr. rewrite Hat. prun. attr.
  rewrite Hap. prun. attr. rewrite Hmode.
  eexists. split; [reflexivity|]. prun. attr. auto.
Qed.

(** C2. On every instance that [__init__] has built, in training or in
    test mode, [prepare_data] raises the attribute error for [mode]: the
    constructor stores the flag as [train] and never assigns [mode].  No
    merged table has been produced by then: [data] is still [None]. *)
Theorem prepare_data_raises_on_mode
        (path : string) (train save_to_excel : bool)
        (colstonotconsider : option (list string))
        (fs : gmap string DataFrame) (w : world) :
  __init__ path train save_to_excel colstonotconsider (mkWorld fs ∅)
  = (Ok tt, w) ->
  self w !! "mode" = None
  /\ self w !! "train" = Some (PBool train)
  /\ exists w',
      prepare_data w = (Raise (AttributeError "mode"), w')
      /\ self w' !! "data" = Some PNone.
Proof.
  intros Hinit.
  pose proof (init_constructed _ _ _ _ _ _ Hinit) as Hc.
  destruct (prepare_data_constructed train w Hc) as (w' & Hrun & Hdata & _).
  split; [apply Hc|]. split; [apply Hc | eauto].
Qed.

(** *** [derive_target] *)

Lemma collect_map_Ok {A B} (g : A -> B) l :
  collect (map (fun i => Ok (g i)) l) = Ok (map g l).
Proof. induction l as [|a l IH]; simpl; [reflexivity | now rewrite IH]. Qed.

Lemma outcome_label_row dm hw dr i :
  getitem dm "HOME_WINS" = Ok hw ->
  getitem dm "DRAW" = Ok dr ->
  outcome_label (row dm i) = Ok (row_label (nth i hw NaN) (nth i dr NaN)).
Proof.
  intros Hhw Hdr. unfold outcome_label, row, row_label. rewrite Hhw. simpl.
  destruct (gt_zero _); [reflexivity|]. rewrite Hdr. simpl.
  destruct (truthy _); reflexivity.
Qed.

Lemma add_results_ok dm hw dr :
  getitem dm "HOME_WINS" = Ok hw ->
  getitem dm "DRAW" = Ok dr ->
  add_results dm
  = Ok (setitem dm "results"
          (map (fun i => row_label (nth i hw NaN) (nth i dr NaN))
               (seq 0 (len dm)))).
Proof.
  intros Hhw Hdr. unfold add_results, apply_rows.
  rewrite (map_ext _ (fun i => Ok (row_label (nth i hw NaN) (nth i dr NaN)))).
  - now rewrite collect_map_Ok.
  - intros i. now apply outcome_label_row.
Qed.

Lemma In_names_set_column c k s (cols : list (string * Series)) :
  In c (map fst (set_column k s cols)) <-> In c (map fst cols) \/ c = k.
Proof.
  induction cols as [|[n x] cols IH]; simpl.
  - split; [intros [<-|[]]; auto | intros [[]| ->]; auto].
  - destruct (String.eqb n k) eqn:E; simpl.
    + apply String.eqb_eq in E. subst n. split; [tauto|].
      intros [H| ->]; auto.
    + rewrite IH. tauto.
Qed.

Lemma assoc_drop_labels c labels (cols : list (string * Series)) :
  ~ In c labels ->
  assoc c (List.filter (fun p => negb (has_label (fst p) labels)) cols)
  = assoc c cols.
Proof.
  intros Hout. induction cols as [|[n s] cols IH]; simpl; [reflexivity|].
  destruct (has_label n labels) eqn:E; simpl.
  - apply has_label_In in E.
    assert (Hne : String.eqb n c = false)
      by (apply String.eqb_neq; intros ->; contradiction).
    now rewrite Hne.
  - now rewrite IH.
Qed.

Lemma getitem_drop_labels df labels c :
  ~ In c labels -> getitem (drop_labels df labels) c = getitem df c.
Proof.
  intros Hout. unfold getitem, drop_labels. cbn [columns].
  now rewrite assoc_drop_labels.
Qed.







(** The hypothesis on the home-win column is needed: the first test is
    [HOME_WINS > 0], so a row with the flags (-1, 0, 0) gets 2 although
    its home-win cell is truthy. *)
Lemma derive_target_not_by_truthiness :
  ~ (forall dm hw dr dm',
        getitem dm "HOME_WINS" = Ok hw ->
        getitem dm "DRAW" = Ok dr ->
        derive_target dm = Ok dm' ->
        getitem dm' "results"
        = Ok (map (fun i => claimed_label (nth i hw NaN) (nth i dr NaN))
                  (seq 0 (len dm)))).
Proof.
  intros H.
  specialize (H Examples.odd_outcome [Num (-1)] [Num 0]
                (mkDF 1 [("ID", [Num 1]); ("results", [Num 2])])
                eq_refl eq_refl eq_refl).
  vm_compute in H. discriminate.
Qed.

(** *** [prepare_player_data] *)

Lemma In_values q s : In q (values s) <-> In (Num q) s.
Proof.
  induction s as [|[|x] s IH]; simpl.
  - tauto.
  - rewrite IH. split; [tauto | intros [H|H]; [discriminate | assumption]].
  - rewrite IH. split; intros [H|H]; auto; left; congruence.
Qed.

Lemma In_Qinsert x y l : In x (Qinsert y l) <-> x = y \/ In x l.
Proof.
  induction l as [|a l IH]; simpl.
  - split; intros [H|H]; auto.
  - destruct (Qle_bool y a); simpl; [|rewrite IH]; split; intros H;
      repeat destruct H as [H|H]; auto.
Qed.

Lemma In_Qsort x l : In x (Qsort l) <-> In x l.
Proof.
  induction l as [|a l IH]; simpl; [tauto|].
  rewrite In_Qinsert, IH. split; intros [H|H]; auto.
Qed.

Lemma In_Qdistinct x l : In x (Qdistinct l) -> In x l.
Proof.
  revert x. induction l as [|a l IH]; simpl; intros x; [tauto|].
  intros [H|H]; [auto|]. apply filter_In in H as [H _]. auto.
Qed.

Lemma Qdistinct_covers x l :
  In x l -> exists y, In y (Qdistinct l) /\ (y == x)%Q.
Proof.
  induction l as [|a l IH]; simpl; [tauto|].
  intros [->|Hin].
  - exists x. split; [now left | reflexivity].
  - destruct (IH Hin) as (y & Hy & Heq).
    destruct (Qeq_bool a y) eqn:E.
    + exists a. split; [now left|]. apply Qeq_bool_iff in E. now rewrite E.
    + exists y. split; [|assumption]. right. apply filter_In. now rewrite E.
Qed.

Lemma InA_filter_sub (f : Q -> bool) x l :
  InA Qeq x (List.filter f l) -> InA Qeq x l.
Proof.
  rewrite !InA_alt. intros (y & Heq & Hin). apply filter_In in Hin as [Hin _]. eauto.
Qed.

Lemma NoDupA_filter (f : Q -> bool) l :
  NoDupA Qeq l -> NoDupA Qeq (List.filter f l).
Proof.
  induction 1 as [|x l Hx Hl IH]; simpl; [constructor|].
  destruct (f x); [|assumption].
  constructor; [|assumption]. intros H. apply Hx. eapply InA_filter_sub; eauto.
Qed.

Lemma NoDupA_Qdistinct l : NoDupA Qeq (Qdistinct l).
Proof.
  induction l as [|a l IH]; simpl; constructor.
  - rewrite InA_alt. intros (y & Heq & Hin). apply filter_In in Hin as [_ Hf].
    apply Bool.negb_true_iff in Hf. apply Qeq_bool_iff in Heq. congruence.
  - now apply NoDupA_filter.
Qed.

Lemma InA_Qinsert z x l :
  InA Qeq z (Qinsert x l) <-> (z == x)%Q \/ InA Qeq z l.
Proof.
  induction l as [|a l IH]; simpl.
  - rewrite InA_cons. tauto.
  - destruct (Qle_bool x a).
    + rewrite InA_cons. tauto.
    + rewrite !InA_cons, IH. tauto.
Qed.

Lemma InA_Qsort z l : InA Qeq z (Qsort l) <-> InA Qeq z l.
Proof.
  induction l as [|a l IH]; simpl; [tauto|].
  rewrite InA_Qinsert, InA_cons, IH. tauto.
Qed.

Lemma NoDupA_Qinsert x l :
  ~ InA Qeq x l -> NoDupA Qeq l -> NoDupA Qeq (Qinsert x l).
Proof.
  intros Hx Hl. induction Hl as [|a l Ha Hl IH]; simpl.
  - constructor; [assumption | constructor].
  - destruct (Qle_bool x a).
    + constructor; [assumption|]. now constructor.
    + constructor.
      * rewrite InA_Qinsert. intros [H|H]; [|contradiction].
        apply Hx. left. now symmetry.
      * apply IH. intros H. apply Hx. now right.
Qed.

Lemma NoDupA_Qsort l : NoDupA Qeq l -> NoDupA Qeq (Qsort l).
Proof.
  induction 1 as [|a l Ha Hl IH]; simpl; [constructor|].
  apply NoDupA_Qinsert; [|assumption]. now rewrite InA_Qsort.
Qed.

Lemma In_group_rows key k i :
  In i (group_rows key k)
  <-> i < length key /\ cell_eqb (nth i key NaN) (Num k) = true.
Proof.
  unfold group_rows. rewrite filter_In, in_seq. intuition lia.
Qed.

Lemma append_empty (c : string) : (c ++ "")%string = c.
Proof.
  induction c as [|a c IH]; [reflexivity|].
  change (String a (c ++ "")%string = String a c). now rewrite IH.
Qed.

(** One statistic of [prepare_player_data]: the grouped frame, renamed. *)
Lemma groupby_ok data key agg :
  getitem data "ID" = Ok key ->
  groupby data "ID" agg
  = Ok (mkGrouped "ID" (map Num (group_keys key))
          (summary_block key (attribute_columns data) "" agg)).
Proof.
  intros Hkey. unfold groupby. rewrite Hkey. cbn [rbind].
  unfold summary_block, attribute_columns. f_equal. f_equal.
  apply map_ext. intros [c s]. cbn [fst snd]. now rewrite append_empty.
Qed.

Lemma rename_columns_summary_block key attributes suffix agg idx :
  String.eqb suffix "" = false ->
  (forall p, In p attributes -> String.eqb (fst p) "ID" = false) ->
  rename_columns (mkGrouped "ID" idx (summary_block key attributes "" agg))
                 "" suffix
  = mkGrouped "ID" idx (summary_block key attributes suffix agg).
Proof.
  intros Hsfx Hid. unfold rename_columns. rewrite String.eqb_refl, Hsfx.
  cbn [negb]. unfold rename, summary_block.
  cbn [frame_columns with_columns Grouped_Frame summaries index_name index].
  f_equal. rewrite map_map. apply map_ext_in.
  intros [c s] Hin. cbn [fst snd]. rewrite append_empty.
  specialize (Hid _ Hin). cbn [fst] in Hid. now rewrite Hid.
Qed.

Lemma attribute_columns_not_ID data p :
  In p (attribute_columns data) -> String.eqb (fst p) "ID" = false.
Proof.
  intros Hin. apply filter_In in Hin as [_ Hc].
  now apply Bool.negb_true_iff in Hc.
Qed.

Lemma names_rename_columns_prefix (raw : DataFrame) prefix :
  names (rename_columns raw prefix "")
  = map (fun c => if String.eqb c "ID" then c else prefix ++ c)%string (names raw).
Proof.
  unfold rename_columns. rewrite String.eqb_refl. cbn [negb].
  destruct (String.eqb prefix "") eqn:E; cbn [negb].
  - apply String.eqb_eq in E. subst prefix. unfold names.
    rewrite map_map. apply map_ext. intros [c s]. simpl.
    now destruct (String.eqb c "ID").
  - unfold rename, names. cbn [frame_columns with_columns DataFrame_Frame columns].
    rewrite !map_map. reflexivity.
Qed.

(** C4 (what the code does).  On a table with an [ID] column,
    [prepare_player_data] returns one row per match identifier of the
    table -- each identifier once, none that has no row -- and, for every
    attribute column, five columns named [<name>_SUM], [<name>_MAX],
    [<name>_MIN], [<name>_MEAN], [<name>_MEDIAN], where [<name>] is the
    label the column has in the table handed in; each holds, per
    identifier, pandas' sum, max, min, mean and median of the attribute
    over the rows of that identifier.  The [prefix] argument, which the
    docstring calls the prefix to add to the columns, is never read: a
    prefix is in the names only when the table handed in has been renamed
    with [rename_columns] first, as [prepare_data] does.  Two players of
    match 1 with 2 and 3 goals give SUM=5, MAX=3, MIN=2, MEAN=2.5,
    MEDIAN=2.5, under the names [goals_SUM] and so on, whatever the
    prefix. *)
Theorem prepare_player_data_summaries
        (data : DataFrame) (prefix : string) (key : Series) :
  getitem data "ID" = Ok key ->
  exists g,
    prepare_player_data data prefix = Ok g
    /\ index_name g = "ID"
    /\ index g = map Num (group_keys key)
    /\ summaries g
       = summary_block key (attribute_columns data) "_SUM" sum
         ++ summary_block key (attribute_columns data) "_MAX" max
         ++ summary_block key (attribute_columns data) "_MIN" min
         ++ summary_block key (attribute_columns data) "_MEAN" mean
         ++ summary_block key (attribute_columns data) "_MEDIAN" median
    /\ NoDupA Qeq (group_keys key)
    /\ (forall k, In k (group_keys key) -> In (Num k) key)
    /\ (forall q, In (Num q) key ->
                  exists k, In k (group_keys key) /\ (k == q)%Q)
    /\ (forall k i, In i (group_rows key k)
                    <-> i < length key
                        /\ cell_eqb (nth i key NaN) (Num k) = true)
    /\ (forall raw : DataFrame,
           names (rename_columns raw prefix "")
           = map (fun c => if String.eqb c "ID" then c else prefix ++ c)%string
                 (names raw))
    /\ prepare_player_data Examples.players prefix
       = Ok (mkGrouped "ID" [Num 1]
               [("goals_SUM", [Num 5]); ("goals_MAX", [Num 3]);
                ("goals_MIN", [Num 2]); ("goals_MEAN", [Num (5 # 2)]);
                ("goals_MEDIAN", [Num (5 # 2)])]).
Proof.
  intros Hkey. eexists. split.
  { unfold prepare_player_data. rewrite !(groupby_ok data key) by assumption.
    cbn [rbind].
    rewrite !rename_columns_summary_block
      by (reflexivity || apply attribute_columns_not_ID).
    reflexivity. }
  unfold concat. cbn [index_name index summaries flat_map].
  rewrite app_nil_r.
  split; [reflexivity|]. split; [reflexivity|]. split; [reflexivity|].
  split; [apply NoDupA_Qsort, NoDupA_Qdistinct|].
  split.
  { intros k Hk. apply In_values, In_Qdistinct.
    unfold group_keys in Hk. now rewrite In_Qsort in Hk. }
  split.
  { intros q Hq. apply In_values in Hq.
    destruct (Qdistinct_covers q _ Hq) as (k & Hk & Heq).
    exists k. split; [|assumption].
    unfold group_keys. now rewrite In_Qsort. }
  split; [apply In_group_rows|].
  split; [intros raw; apply names_rename_columns_prefix|].
  vm_compute. reflexivity.
Qed.

(** The names of C4 are not the ones the code gives: handed the two
    players of match 1 and the prefix [HOME_PLAYERS_],
    [prepare_player_data] names the sum [goals_SUM]. *)
Lemma prepare_player_data_ignores_prefix :
  ~ (forall data prefix g c s,
        prepare_player_data data prefix = Ok g ->
        In (c, s) (attribute_columns data) ->
        In (prefix ++ c ++ "_SUM")%string (map fst (summaries g))).
Proof.
  intros H.
  specialize (H Examples.players "HOME_PLAYERS_"
                (mkGrouped "ID" [Num 1]
                   [("goals_SUM", [Num 5]); ("goals_MAX", [Num 3]);
                    ("goals_MIN", [Num 2]); ("goals_MEAN", [Num (5 # 2)]);
                    ("goals_MEDIAN", [Num (5 # 2)])])
                "goals" [Num 2; Num 3] eq_refl (or_introl eq_refl)).
  vm_compute in H.
  repeat destruct H as [H|H]; try discriminate H. exact H.
Qed.

(** C5 (what the code does instead).  On a training set of two matches
    [prepare_data] removes the excluded columns and then raises on
    [self.mode]: no join is made and [data] stays [None], where the claim
    expects the joined table of the two matches. *)
Theorem build_stops_before_the_joins :
  let excluded := ["TEAM_NAME"; "LEAGUE"; "PLAYER_NAME"; "POSITION"] in
  let start := __init__ "d/" true true None (mkWorld Examples.csv_files ∅) in
  let stop := prepare_data (snd start) in
  fst start = Ok tt
  /\ fst stop = Raise (AttributeError "mode")
  /\ self (snd stop) !! "data" = Some PNone
  /\ self (snd stop) !! "data_home_team"
     = Some (PFrame (remove_from excluded Examples.teams))
  /\ claimed_build excluded Examples.outcomes Examples.teams
       Examples.match_players Examples.teams Examples.match_players
     = Ok (mkDF 2
             [("ID", [Num 1; Num 2]); ("results", [Num 0; Num 2]);
              ("HOME_shots", [Num 10; Num 12]);
              ("AWAY_shots", [Num 10; Num 12]);
              ("HOME_PLAYERS_goals_SUM", [Num 5; Num 1]);
              ("HOME_PLAYERS_goals_MAX", [Num 3; Num 1]);
              ("HOME_PLAYERS_goals_MIN", [Num 2; Num 0]);
              ("HOME_PLAYERS_goals_MEAN", [Num (5 # 2); Num (1 # 2)]);
              ("HOME_PLAYERS_goals_MEDIAN", [Num (5 # 2); Num (1 # 2)]);
              ("AWAY_PLAYERS_goals_SUM", [Num 5; Num 1]);
              ("AWAY_PLAYERS_goals_MAX", [Num 3; Num 1]);
              ("AWAY_PLAYERS_goals_MIN", [Num 2; Num 0]);
              ("AWAY_PLAYERS_goals_MEAN", [Num (5 # 2); Num (1 # 2)]);
              ("AWAY_PLAYERS_goals_MEDIAN", [Num (5 # 2); Num (1 # 2)])]).
Proof. vm_compute. repeat split. Qed.

End AggregatorFacts.

(** ** The theorems at work on the small tables *)

Module Witnesses.
Import Pandas PandasFacts Reference.

Lemma prepared_well_formed : well_formed Examples.prepared.
Proof.
  split.
  - apply (bool_decide_unpack _). vm_compute. exact I.
  - unfold rectangular. simpl. repeat constructor.
Defined.

Lemma drop_sparse_columns_threshold_witness :
  well_formed Examples.prepared
  /\ columns Examples.prepared <> []
  /\ exists df',
      GetData.drop_sparse_columns 0.2 Examples.prepared = Ok df'
      /\ (forall c s, In (c, s) (columns df') -> In (c, s) (columns Examples.prepared)).
Proof.
  assert (H : columns Examples.prepared <> []) by discriminate.
  split; [exact prepared_well_formed|].
  split; [exact H|].
  destruct (GetDataFacts.drop_sparse_columns_threshold
              Examples.prepared prepared_well_formed H)
    as (df' & Hrun & Hsub & _).
  exists df'. split; assumption.
Defined.

Lemma feature_columns_from_original_table_witness :
  let fs := Examples.parquet_files Examples.prepared Examples.prepared in
  fs !! parquet_of true = Some Examples.prepared
  /\ NoDup (names Examples.prepared)
  /\ len Examples.prepared <> 0
  /\ (exists c, In c (names Examples.prepared)
                /\ ~ In c (GetData.sparse_columns 0.2 Examples.prepared))
  /\ exists w,
      GetData.prepare_data (fun q => q) (GetData.mkWorld fs [] (GetData.__init__ true))
      = (Ok tt, w)
      /\ GetData.feature_columns (GetData.self w) = Some ["a"].
Proof.
  intros fs.
  assert (H1 : fs !! parquet_of true = Some Examples.prepared) by reflexivity.
  assert (H2 : NoDup (names Examples.prepared)) by apply prepared_well_formed.
  assert (H3 : len Examples.prepared <> 0) by discriminate.
  assert (H4 : exists c, In c (names Examples.prepared)
                         /\ ~ In c (GetData.sparse_columns 0.2 Examples.prepared)).
  { exists "a". split; [simpl; tauto|]. vm_compute. intros [H|[]]. discriminate H. }
  repeat (split; [assumption|]).
  destruct (PipelineFacts.feature_columns_from_original_table
              (fun q => q) fs [] true Examples.prepared H1 H2 H3 H4)
    as (w & df1 & df2 & Hrun & Hs & Hc & Hfc & _).
  exists w. split; [assumption|]. rewrite Hfc.
  vm_compute in Hs. injection Hs as <-.
  vm_compute in Hc. injection Hc as <-.
  reflexivity.
Defined.

Lemma scale_data_standardizes_witness :
  let h : list DataFrame := [Examples.test_complete; Examples.prepared] in
  h !! 0 = Some Examples.test_complete
  /\ h !! 1 = Some Examples.prepared
  /\ NoDup ["a"]
  /\ (forall c, In c ["a"] ->
                In c (names Examples.test_complete) /\ In c (names Examples.prepared))
  /\ exists td',
      GetData.scale_data (fun q => q) 0 ["a"] 1 h = (Ok 0, <[0 := td']> h).
Proof.
  intros h.
  assert (H1 : h !! 0 = Some Examples.test_complete) by reflexivity.
  assert (H2 : h !! 1 = Some Examples.prepared) by reflexivity.
  assert (H3 : NoDup ["a"]) by (apply (bool_decide_unpack _); vm_compute; exact I).
  assert (H4 : forall c, In c ["a"] ->
                 In c (names Examples.test_complete) /\ In c (names Examples.prepared)).
  { intros c [<-|[]]. simpl. tauto. }
  repeat (split; [assumption|]).
  destruct (ScalingFacts.scale_data_standardizes
              (fun q => q) h 0 1 _ _ ["a"] H1 H2 H3 H4) as (td' & Hrun & _).
  exists td'. exact Hrun.
Defined.

Lemma scale_data_frame_in_place_witness :
  let h : list DataFrame := [Examples.test_complete; Examples.prepared] in
  h !! 0 = Some Examples.test_complete
  /\ exists td',
      snd (GetData.scale_data (fun q => q) 0 ["a"] 1 h) = <[0 := td']> h
      /\ getitem td' "ID" = getitem Examples.test_complete "ID".
Proof.
  intros h.
  assert (H1 : h !! 0 = Some Examples.test_complete) by reflexivity.
  split; [assumption|].
  destruct (ScalingFacts.scale_data_frame_in_place
              (fun q => q) h 0 1 ["a"] _ H1) as (td' & Hs & _ & _ & Hc & _).
  exists td'. split; [assumption|]. apply Hc.
  intros [H|[]]. discriminate H.
Defined.

Lemma prepare_data_raises_on_mode_witness :
  let start :=
    PrepareData.__init__ "d/" true true None
      (PrepareData.mkWorld Examples.csv_files ∅) in
  start = (Ok tt, snd start)
  /\ exists w',
      PrepareData.prepare_data (snd start) = (Raise (AttributeError "mode"), w').
Proof.
  intros start.
  assert (H : start = (Ok tt, snd start)) by (vm_compute; reflexivity).
  split; [assumption|].
  destruct (AggregatorFacts.prepare_data_raises_on_mode
              "d/" true true None Examples.csv_files (snd start) H)
    as (_ & _ & w' & Hrun & _).
  exists w'. exact Hrun.
Defined.


Lemma prepare_player_data_summaries_witness :
  getitem Examples.players "ID" = Ok [Num 1; Num 1]
  /\ exists g,
      PrepareData.prepare_player_data Examples.players "HOME_PLAYERS_" = Ok g
      /\ PrepareData.index g = [Num 1].
Proof.
  assert (H1 : getitem Examples.players "ID" = Ok [Num 1; Num 1]) by reflexivity.
  split; [assumption|].
  destruct (AggregatorFacts.prepare_player_data_summaries
              Examples.players "HOME_PLAYERS_" _ H1) as (g & Hrun & _ & Hidx & _).
  exists g. split; [assumption|]. rewrite Hidx. reflexivity.
Defined.

End Witnesses.

(** ** More about the scaler *)

Module ScalerEdgeFacts.
Import Pandas GetData PandasFacts Reference Auxiliary GetDataFacts ScalingFacts
       PipelineFacts.

(** A table scaled against itself: the run, what is left alone and what the
    listed columns become. *)
Lemma scale_data_self_full sqrt (h : heap) l td fc :
  h !! l = Some td ->
  (forall c, In c fc -> In c (names td)) ->
  exists td',
    scale_data sqrt l fc l h = (Ok l, <[l := td']> h)
    /\ names td' = names td
    /\ len td' = len td
    /\ (forall c, ~ In c fc -> getitem td' c = getitem td c)
    /\ (NoDup fc -> forall c x, In c fc -> getitem td c = Ok x ->
          getitem td' c = Ok (standardize (mean x) (std sqrt x) x)).
Proof.
  intros Hl Hfc.
  destruct (scale_loop_frame sqrt fc l l h td Hl) as (td' & Hs & Hn & Hlen & Hout).
  pose proof (scale_loop_returns sqrt fc l l h td Hl Hfc (or_introl eq_refl)) as Hr.
  assert (Hlt : l < length h) by (eapply lookup_lt_Some; eauto).
  exists td'. split; [|split; [|split; [|split]]]; try assumption.
  - unfold scale_data, bind.
    destruct (scale_loop sqrt l fc l h) as [r h']. simpl in *. now subst.
  - intros Hnd c x Hc Hx.
    destruct (scale_loop_value sqrt fc Hnd l l h td td Hl Hl) as (td'' & Hrun & _ & Hval).
    { intros c' Hc'. split; now apply Hfc. }
    rewrite Hrun in Hs. simpl in Hs.
    apply (f_equal (fun k : heap => k !! l)) in Hs.
    rewrite !list_lookup_insert_eq in Hs by assumption.
    injection Hs as <-. now apply Hval.
Qed.

(** The run of [prepare_data], with what the last step leaves in the
    table. *)
Lemma prepare_data_result sqrt fs (h : heap) tr df :
  fs !! parquet_of tr = Some df ->
  len df <> 0 ->
  (exists c, In c (names df) /\ ~ In c (sparse_columns 0.2 df)) ->
  let df1 := drop_labels df (sparse_columns 0.2 df) in
  let df2 := drop_labels df1 (constant_columns df1) in
  let fc := List.filter (fun col => has_label col (names df2))
                        (select_feature_columns df "results") in
  exists td',
    prepare_data sqrt (mkWorld fs h (__init__ tr))
    = (Ok tt,
       mkWorld fs (h ++ [df; df1; df2; td'])
               (mkScaler tr (Some (length h + 3)) (Some fc) "results"))
    /\ names td' = names df2
    /\ len td' = len (dropna df2)
    /\ (forall c, ~ In c fc -> getitem td' c = getitem (dropna df2) c)
    /\ (NoDup fc -> forall c x, In c fc -> getitem (dropna df2) c = Ok x ->
          getitem td' c = Ok (standardize (mean x) (std sqrt x) x)).
Proof.
  intros Hf Hlen (c0 & Hc0 & Hc0') df1 df2 fc.
  assert (H1 : drop_sparse_columns 0.2 df = Ok df1)
    by (eapply drop_sparse_columns_ok, has_a_column; eauto).
  assert (H2 : drop_constant_columns df1 = Ok df2).
  { eapply drop_constant_columns_ok, has_a_column.
    apply names_drop_labels. eauto. }
  assert (H3 : report (len df2) = Ok tt) by now apply report_ok.
  set (H := (((h ++ [df]) ++ [df1]) ++ [df2]) ++ [dropna df2]).
  set (l3 := length (((h ++ [df]) ++ [df1]) ++ [df2])).
  destruct (scale_data_self_full sqrt H l3 (dropna df2) fc)
    as (td' & Hrun & Hn & Hl & Hout & Hval).
  { apply lookup_alloc. }
  { intros c Hc. rewrite names_dropna. apply filter_In in Hc as [_ Hc].
    now apply has_label_In. }
  exists td'. rewrite names_dropna in Hn.
  split; [|auto].
  run.
  destruct tr; cbv [parquet_of] in Hf; rewrite Hf; run;
    rewrite lookup_alloc; run; rewrite H1; run;
    rewrite H2; run; rewrite H3; fold H l3 fc; rewrite Hrun; run;
    (f_equal; f_equal;
     [ unfold H; rewrite insert_app_r_alt by (unfold l3; lia);
       replace (l3 - _) with 0 by (unfold l3; lia); simpl;
       now rewrite <- !app_assoc
     | unfold l3; rewrite !length_app; simpl; f_equal; f_equal; lia ]).
Qed.

Lemma lookup_fourth (h : heap) (a b c d : DataFrame) :
  (h ++ [a; b; c; d]) !! (length h + 3) = Some d.
Proof.
  rewrite lookup_app_r by lia. now replace (length h + 3 - length h) with 3 by lia.
Qed.

(** [dropna] leaves no missing cell. *)
Lemma dropna_complete df c x :
  getitem (dropna df) c = Ok x -> forallb notna x = true.
Proof.
  intros Hx. apply getitem_Ok in Hx. unfold dropna, iloc in Hx. cbn [columns] in Hx.
  rewrite assoc_iloc in Hx.
  destruct (assoc c (columns df)) as [s|] eqn:Hs; [|discriminate].
  injection Hx as <-. apply forallb_forall. intros v Hv.
  unfold take in Hv. apply in_map_iff in Hv as (i & <- & Hi).
  apply filter_In in Hi as [_ Hi]. unfold complete_row in Hi.
  rewrite forallb_forall in Hi.
  assert (Hin : exists s', In (c, s') (columns df) /\ assoc c (columns df) = Some s').
  { clear -Hs. induction (columns df) as [|[n y] cols IH]; simpl in *; [discriminate|].
    destruct (String.eqb n c) eqn:E.
    - apply String.eqb_eq in E. subst n. exists y. auto.
    - destruct (IH Hs) as (s' & Hin & Ha). exists s'. auto. }
  destruct Hin as (s' & Hin & Ha). assert (s' = s) by congruence. subst s'.
  exact (Hi _ Hin).
Qed.

Lemma NoDup_map_fst_filter (f : string * Series -> bool) cols :
  NoDup (map fst cols) -> NoDup (map fst (List.filter f cols)).
Proof.
  induction cols as [|p cols IH]; simpl; intros Hnd; [constructor|].
  apply NoDup_cons in Hnd as [Hp Hnd]. destruct (f p); simpl; [|auto].
  apply NoDup_cons. split; [|auto].
  rewrite list_elem_of_In in *. intros Hin. apply Hp.
  apply in_map_iff in Hin as (q & Hq & Hin). apply filter_In in Hin as [Hin _].
  apply in_map_iff. eauto.
Qed.

Lemma NoDup_List_filter {A} (f : A -> bool) l :
  NoDup l -> NoDup (List.filter f l).
Proof.
  induction l as [|a l IH]; simpl; intros Hnd; [constructor|].
  apply NoDup_cons in Hnd as [Ha Hnd]. destruct (f a); [|auto].
  apply NoDup_cons. split; [|auto].
  rewrite list_elem_of_In in *. intros Hin. apply Ha.
  now apply filter_In in Hin as [Hin _].
Qed.

(** X1. When the parquet file of the mode is missing, [get_data] raises
    FileNotFoundError for that path and has changed nothing: no object is
    created and [self.data] is still [None]. *)
Theorem get_data_missing_file (sqrt : Q -> Q) (fs : gmap string DataFrame)
        (h : heap) (tr : bool) :
  fs !! parquet_of tr = None ->
  get_data sqrt (mkWorld fs h (__init__ tr))
  = (Raise (FileNotFoundError (parquet_of tr)), mkWorld fs h (__init__ tr)).
Proof.
  intros Hf. run. destruct tr; cbv [parquet_of] in Hf; rewrite Hf; reflexivity.
Qed.

(** X2. [prepare_data] raises ZeroDivisionError, from the percentage of one
    of its messages, when the loaded table has no rows, or when every one
    of its columns is sparse (in particular when it has no column). *)
Theorem prepare_data_zero_division (sqrt : Q -> Q) (fs : gmap string DataFrame)
        (h : heap) (tr : bool) (df : DataFrame) :
  fs !! parquet_of tr = Some df ->
  len df = 0 \/ (forall c, In c (names df) -> In c (sparse_columns 0.2 df)) ->
  fst (prepare_data sqrt (mkWorld fs h (__init__ tr))) = Raise ZeroDivisionError.
Proof.
  intros Hf Hcase.
  set (df1 := drop_labels df (sparse_columns 0.2 df)).
  assert (Hsparse : length (columns df1) <> 0 -> len df = 0).
  { intros Hne. destruct Hcase as [H0|Hall]; [assumption|]. exfalso. apply Hne.
    replace (columns df1) with (@nil (string * Series)); [reflexivity|].
    symmetry. apply filter_nil_iff. intros [c s] Hin. cbn [fst].
    apply Bool.negb_false_iff, has_label_In, Hall. eapply In_columns_names; eauto. }
  run.
  destruct tr; cbv [parquet_of] in Hf; rewrite Hf; run; rewrite lookup_alloc; run.
  all: destruct (list_eq_nil_dec (columns df)) as [E1|E1];
         [now rewrite (drop_sparse_columns_no_column 0.2 df E1)|].
  all: rewrite drop_sparse_columns_ok by exact E1; run; fold df1.
  all: destruct (list_eq_nil_dec (columns df1)) as [E2|E2];
         [now rewrite (drop_constant_columns_no_column df1 E2)|].
  all: rewrite drop_constant_columns_ok by exact E2; run.
  all: replace (len (drop_labels df1 (constant_columns df1))) with 0
         by (symmetry; apply Hsparse; now apply columns_nonempty).
  all: reflexivity.
Qed.

Lemma scale_data_effect sqrt (h : heap) data train_data fc td r h' :
  h !! data = Some td ->
  scale_data sqrt data fc train_data h = (r, h') ->
  exists td',
    h' = <[data := td']> h
    /\ names td' = names td
    /\ len td' = len td
    /\ (forall c, ~ In c fc -> getitem td' c = getitem td c)
    /\ (forall l, r = Ok l -> l = data).
Proof.
  intros Hd Hrun.
  destruct (scale_loop_frame sqrt fc data train_data h td Hd)
    as (td' & Hs & Hn & Hl & Hc).
  exists td'. unfold scale_data, bind in Hrun.
  destruct (scale_loop sqrt data fc train_data h) as [[[]|e] h''] eqn:E;
    simpl in *; injection Hrun as <- <-; repeat (split; [solve [auto]|]).
  - intros l [= <-]. reflexivity.
  - intros l [=].
Qed.

(** X3. In training mode [get_data] reads the training file only and writes
    no file: two sets of files that agree on
    [data/prepared_data_train.parquet] give the same outcome, the same
    objects and the same instance, and each is left as it was. *)
Theorem get_data_train_mode_files (sqrt : Q -> Q)
        (fs1 fs2 : gmap string DataFrame) (h : heap) :
  fs1 !! parquet_of true = fs2 !! parquet_of true ->
  exists r h' s,
    get_data sqrt (mkWorld fs1 h (__init__ true)) = (r, mkWorld fs1 h' s)
    /\ get_data sqrt (mkWorld fs2 h (__init__ true)) = (r, mkWorld fs2 h' s).
Proof.
  cbv [parquet_of]. intros Hf.
  remember (fs2 !! "data/prepared_data_train.parquet") as o eqn:Ho.
  run. rewrite Hf, <- ?Ho.
  destruct o as [df|]; run; [|eauto].
  rewrite lookup_alloc. run.
  repeat match goal with
         | |- context [match ?x with _ => _ end] =>
             match x with
             | context [match _ with _ => _ end] => fail 1
             | _ => destruct x eqn:?; run; rewrite ?Hf, <- ?Ho; run
             end
         end; eauto.
Qed.

(** X9. In test mode the table [get_data] returns is the test table with
    its listed columns rewritten: it has the labels and the number of rows
    of the test file, rows with missing values included, and the columns
    outside the returned feature list are those of the file. *)
Theorem get_data_test_mode_keeps_test_rows (sqrt : Q -> Q)
        (fs : gmap string DataFrame) (h : heap) (U : DataFrame)
        (l : loc) (fc : list string) (t : string) (w : world) :
  fs !! parquet_of false = Some U ->
  get_data sqrt (mkWorld fs h (__init__ false)) = (Ok (l, fc, t), w) ->
  exists td',
    objects w !! l = Some td'
    /\ data (self w) = Some l
    /\ feature_columns (self w) = Some fc
    /\ names td' = names U
    /\ len td' = len U
    /\ (forall c, ~ In c fc -> getitem td' c = getitem U c).
Proof.
  cbv [parquet_of]. intros Hf. run. rewrite Hf. run. rewrite lookup_alloc. run.
  repeat match goal with
         | |- context [match ?x with _ => _ end] =>
             match x with
             | context [match _ with _ => _ end] => fail 1
             | _ => destruct x eqn:?; run; rewrite ?Hf; run
             end
         end; try (intros [=]; fail).
  intros Heq. injection Heq as <- <- <- <- <- <- <- <-.
  match goal with
  | H : scale_data _ (length (?l0 ++ [?d])) _ _ _ = _ |- _ =>
      destruct (scale_data_effect _ _ _ _ _ U _ _ (lookup_alloc (l0 ++ [d]) U) H)
        as (td' & -> & Hn & Hl & Hc & Hret)
  end.
  subst. pose proof (Hret _ eq_refl) as ->.
  exists td'. split; [|auto].
  apply list_lookup_insert_eq. rewrite !length_app. simpl. lia.
Qed.

(** [fit_and_scale] keeps the labels. *)
Lemma names_scale_column sqrt tr td c :
  names (scale_column sqrt tr td c) = names td.
Proof.
  unfold scale_column.
  destruct (getitem td c) as [x|] eqn:Hx; [|reflexivity].
  destruct (getitem tr c); [|reflexivity].
  unfold names, setitem. cbn [columns]. apply names_set_column.
  apply getitem_Ok in Hx. eapply assoc_Some_names; eauto.
Qed.

Lemma names_fit_and_scale sqrt fc : forall td tr,
  names (fit_and_scale sqrt td fc tr) = names td.
Proof.
  unfold fit_and_scale. induction fc as [|c fc IH]; intros td tr; simpl;
    [reflexivity|]. now rewrite IH, names_scale_column.
Qed.

Lemma fit_and_scale_app sqrt pre rest td tr :
  fit_and_scale sqrt td (pre ++ rest) tr
  = fit_and_scale sqrt (fit_and_scale sqrt td pre tr) rest tr.
Proof. unfold fit_and_scale. apply fold_left_app. Qed.

(** The loop over a list whose first part is present in both tables. *)
Lemma scale_loop_prefix sqrt pre : forall rest data train_data (h : heap) td tr,
  data <> train_data ->
  h !! data = Some td ->
  h !! train_data = Some tr ->
  (forall c, In c pre -> In c (names td) /\ In c (names tr)) ->
  scale_loop sqrt data (pre ++ rest) train_data h
  = scale_loop sqrt data rest train_data
      (<[data := fit_and_scale sqrt td pre tr]> h).
Proof.
  induction pre as [|col pre IH]; intros rest data train_data h td tr Hne Hd Hr Hpre.
  - simpl. unfold fit_and_scale. simpl. now rewrite list_insert_id.
  - cbn [app]. rewrite (scale_loop_cons _ _ _ _ _ _ _ Hd).
    destruct (Hpre col (or_introl eq_refl)) as [Hcd Hcr].
    destruct (getitem_names td col Hcd) as [x0 Hx0].
    destruct (getitem_names tr col Hcr) as [r0 Hr0].
    rewrite Hx0, Hr, Hr0.
    assert (Hlt : data < length h) by (eapply lookup_lt_Some; eauto).
    rewrite (IH rest data train_data _
               (setitem td col (standardize (mean r0) (std sqrt r0) x0)) tr Hne).
    + rewrite list_insert_insert_eq. unfold fit_and_scale. simpl.
      replace (scale_column sqrt tr td col)
        with (setitem td col (standardize (mean r0) (std sqrt r0) x0));
        [reflexivity|].
      unfold scale_column. now rewrite Hx0, Hr0.
    + now apply list_lookup_insert_eq.
    + now rewrite list_lookup_insert_ne.
    + intros c Hc. unfold names at 1. simpl. rewrite names_set_column.
      * apply Hpre. now right.
      * apply getitem_Ok in Hx0. eapply assoc_Some_names; eauto.
Qed.

Lemma getitem_absent df c : ~ In c (names df) -> getitem df c = Raise (KeyError c).
Proof.
  intros H. apply assoc_None in H. unfold getitem. now rewrite H.
Qed.

(** X4. [scale_data] does not undo what it has done when it fails: if the
    listed columns are there up to some column [c] that one of the two
    tables lacks, the call raises KeyError for [c] and leaves [data] with
    the columns listed before [c] already scaled. *)
Theorem scale_data_stops_at_missing_column (sqrt : Q -> Q) (h : heap)
        (data train_data : loc) (td tr : DataFrame)
        (pre rest : list string) (c : string) :
  data <> train_data ->
  h !! data = Some td ->
  h !! train_data = Some tr ->
  (forall c', In c' pre -> In c' (names td) /\ In c' (names tr)) ->
  ~ In c (names td) \/ ~ In c (names tr) ->
  scale_data sqrt data (pre ++ c :: rest) train_data h
  = (Raise (KeyError c), <[data := fit_and_scale sqrt td pre tr]> h).
Proof.
  intros Hne Hd Hr Hpre Hc.
  assert (Hlt : data < length h) by (eapply lookup_lt_Some; eauto).
  unfold scale_data, bind.
  rewrite (scale_loop_prefix sqrt pre (c :: rest) data train_data h td tr)
    by assumption.
  rewrite (scale_loop_cons sqrt data c rest train_data _
             (fit_and_scale sqrt td pre tr))
    by now apply list_lookup_insert_eq.
  rewrite list_lookup_insert_ne by assumption. rewrite Hr.
  destruct (in_dec String.string_dec c (names td)) as [Hin|Hout].
  - destruct (getitem_names (fit_and_scale sqrt td pre tr) c) as [x Hx];
      [now rewrite names_fit_and_scale|].
    rewrite Hx. destruct Hc as [Hc|Hc]; [contradiction|].
    now rewrite (getitem_absent tr c Hc).
  - rewrite getitem_absent by now rewrite names_fit_and_scale.
    reflexivity.
Qed.

(** X5. When [prepare_data] returns, [self.data] is a table with the
    labels that survived the two drops and with the complete rows of the
    pruned table, no more; its columns outside the feature list have no
    missing cell. *)
Theorem prepare_data_leaves_complete_rows (sqrt : Q -> Q)
        (fs : gmap string DataFrame) (h : heap) (tr : bool) (df : DataFrame) :
  fs !! parquet_of tr = Some df ->
  len df <> 0 ->
  (exists c, In c (names df) /\ ~ In c (sparse_columns 0.2 df)) ->
  let df1 := drop_labels df (sparse_columns 0.2 df) in
  let df2 := drop_labels df1 (constant_columns df1) in
  exists w l fc td',
    prepare_data sqrt (mkWorld fs h (__init__ tr)) = (Ok tt, w)
    /\ data (self w) = Some l
    /\ feature_columns (self w) = Some fc
    /\ objects w !! l = Some td'
    /\ names td' = names df2
    /\ len td' = length (List.filter (complete_row df2) (seq 0 (len df2)))
    /\ (forall c x, ~ In c fc -> getitem td' c = Ok x -> forallb notna x = true).
Proof.
  intros Hf Hlen Hcol df1 df2.
  destruct (prepare_data_result sqrt fs h tr df Hf Hlen Hcol)
    as (td' & Hrun & Hn & Hl & Hout & _).
  fold df1 df2 in Hrun, Hn, Hl, Hout.
  eexists _, _, _, td'. split; [exact Hrun|]. cbn [self objects data feature_columns].
  split; [reflexivity|]. split; [reflexivity|].
  split; [apply lookup_fourth|]. split; [assumption|]. split; [exact Hl|].
  intros c x Hc Hx. rewrite Hout in Hx by assumption.
  eapply dropna_complete; eauto.
Qed.

(** X6. The feature list [prepare_data] returns with can be used to index
    the table it returns with: every name in it is a label of the table,
    neither [ID] nor [results] is in it, and it has no duplicate when the
    loaded table has none. *)
Theorem prepare_data_feature_list (sqrt : Q -> Q)
        (fs : gmap string DataFrame) (h : heap) (tr : bool) (df : DataFrame) :
  fs !! parquet_of tr = Some df ->
  len df <> 0 ->
  (exists c, In c (names df) /\ ~ In c (sparse_columns 0.2 df)) ->
  exists w l fc td',
    prepare_data sqrt (mkWorld fs h (__init__ tr)) = (Ok tt, w)
    /\ data (self w) = Some l
    /\ feature_columns (self w) = Some fc
    /\ objects w !! l = Some td'
    /\ (forall c, In c fc -> In c (names td') /\ In c (names df))
    /\ ~ In "ID" fc
    /\ ~ In "results" fc
    /\ (NoDup (names df) -> NoDup fc).
Proof.
  intros Hf Hlen Hcol.
  destruct (prepare_data_result sqrt fs h tr df Hf Hlen Hcol)
    as (td' & Hrun & Hn & _).
  eexists _, _, _, td'. split; [exact Hrun|]. cbn [self objects data feature_columns].
  split; [reflexivity|]. split; [reflexivity|].
  split; [apply lookup_fourth|].
  split; [|split; [|split]].
  - intros c Hc. apply filter_In in Hc as [Hsel Hc]. rewrite Hn.
    split; [now apply has_label_In|].
    apply In_select_feature_columns in Hsel as (_ & _ & s & Hin & _).
    eapply In_columns_names; eauto.
  - rewrite filter_In, In_select_feature_columns. tauto.
  - rewrite filter_In, In_select_feature_columns. tauto.
  - intros Hnd. apply NoDup_List_filter. unfold select_feature_columns.
    now apply NoDup_map_fst_filter.
Qed.

(** X7. In the table [prepare_data] returns with, every feature column is
    the column of the cleaned table (pruned, incomplete rows dropped)
    standardized with its own mean and standard deviation: scaling the
    table against itself, in place, does not let an already scaled column
    disturb the next. *)
Theorem prepare_data_scales_against_itself (sqrt : Q -> Q)
        (fs : gmap string DataFrame) (h : heap) (tr : bool) (df : DataFrame) :
  fs !! parquet_of tr = Some df ->
  NoDup (names df) ->
  len df <> 0 ->
  (exists c, In c (names df) /\ ~ In c (sparse_columns 0.2 df)) ->
  let df1 := drop_labels df (sparse_columns 0.2 df) in
  let df2 := drop_labels df1 (constant_columns df1) in
  exists w l fc td',
    prepare_data sqrt (mkWorld fs h (__init__ tr)) = (Ok tt, w)
    /\ data (self w) = Some l
    /\ feature_columns (self w) = Some fc
    /\ objects w !! l = Some td'
    /\ (forall c x, In c fc -> getitem (dropna df2) c = Ok x ->
          getitem td' c
          = Ok (map (fun v => div (sub v (mean x)) (std sqrt x)) x)).
Proof.
  intros Hf Hnd Hlen Hcol df1 df2.
  destruct (prepare_data_result sqrt fs h tr df Hf Hlen Hcol)
    as (td' & Hrun & _ & _ & _ & Hval).
  fold df1 df2 in Hrun, Hval.
  eexists _, _, _, td'. split; [exact Hrun|]. cbn [self objects data feature_columns].
  split; [reflexivity|]. split; [reflexivity|].
  split; [apply lookup_fourth|].
  apply Hval. apply NoDup_List_filter. unfold select_feature_columns.
  now apply NoDup_map_fst_filter.
Qed.

(** Sums of rationals, up to equality of rationals. *)
Lemma fold_left_Qplus l : forall a, (fold_left Qplus l a == a + Qsum l)%Q.
Proof.
  unfold Qsum. induction l as [|x l IH]; intros a; simpl.
  - ring.
  - rewrite (IH (a + x)%Q), (IH (0 + x)%Q). ring.
Qed.

Lemma Qsum_cons x l : (Qsum (x :: l) == x + Qsum l)%Q.
Proof. unfold Qsum at 1. simpl. rewrite fold_left_Qplus. ring. Qed.

Lemma Qlen_cons (x : Q) l : (Qlen (x :: l) == Qlen l + 1)%Q.
Proof.
  unfold Qlen. cbn [length]. rewrite Nat2Z.inj_succ, <- Z.add_1_r.
  now rewrite inject_Z_plus.
Qed.

Lemma Qlen_pos (x : Q) l : (0 < Qlen (x :: l))%Q.
Proof.
  unfold Qlen. change 0%Q with (inject_Z 0). rewrite <- Zlt_Qlt.
  cbn [length]. lia.
Qed.

Lemma Qsum_standardized (m s : Q) l :
  ~ (s == 0)%Q ->
  (Qsum (map (fun v => (v - m) / s) l) == (Qsum l - Qlen l * m) / s)%Q.
Proof.
  intros Hs. induction l as [|x l IH].
  - unfold Qsum, Qlen. simpl. field. assumption.
  - cbn [map]. rewrite !Qsum_cons, IH, Qlen_cons. field. assumption.
Qed.

Lemma values_map_Num l : values (map Num l) = l.
Proof. induction l as [|x l IH]; simpl; [reflexivity | now rewrite IH]. Qed.

(** X8. In exact arithmetic the formula of [scale_data] centres a column:
    a column without missing values, standardized with its own mean and
    any non-zero deviation, has mean 0. *)
Theorem standardized_column_has_mean_zero (m s : Q) (l : list Q) :
  mean (map Num l) = Num m ->
  ~ (s == 0)%Q ->
  exists q,
    mean (map (fun v => div (sub v (Num m)) (Num s)) (map Num l)) = Num q
    /\ (q == 0)%Q.
Proof.
  intros Hm Hs.
  assert (Hsb : Qeq_bool s 0 = false).
  { destruct (Qeq_bool s 0) eqn:E; [|reflexivity].
    apply Qeq_bool_iff in E. contradiction. }
  assert (Hvals : map (fun v => div (sub v (Num m)) (Num s)) (map Num l)
                  = map Num (map (fun v => (v - m) / s)%Q l)).
  { rewrite !map_map. apply map_ext. intros v. simpl. now rewrite Hsb. }
  rewrite Hvals. unfold mean in *. rewrite values_map_Num in *.
  destruct l as [|x l]; [discriminate|]. injection Hm as Hm.
  cbn [map]. eexists. split; [reflexivity|].
  change ((x - m) / s :: map (fun v => (v - m) / s) l)%Q
    with (map (fun v => (v - m) / s)%Q (x :: l)).
  rewrite Qsum_standardized by assumption.
  replace (Qlen (map (fun v => (v - m) / s)%Q (x :: l))) with (Qlen (x :: l))
    by (unfold Qlen; now rewrite length_map).
  pose proof (Qlen_pos x l) as Hpos.
  assert (Hn : ~ (Qlen (x :: l) == 0)%Q).
  { intros E. rewrite E in Hpos. discriminate. }
  rewrite <- Hm. field. split; assumption.
Qed.

End ScalerEdgeFacts.

(** ** More about the aggregator *)

Module AggregatorEdgeFacts.
Import Pandas PrepareData PandasFacts Reference Auxiliary ScalingFacts
       AggregatorFacts.

Ltac prun2 :=
  cbv beta iota zeta delta
    [__init__ load_data prepare_data remove_columns remove_columns_loop
     mode_is_train get_frame read_csv getattr setattr as_str as_list as_frame
     py_bool bind gets modify ret raise lift files self fst snd
     save_data frame_method to_file].

(** X10. [__init__] reads the files of its mode in a fixed order -- the
    outcomes first and only in training mode -- and raises
    FileNotFoundError for the first one that is missing; it returns
    normally exactly when all of them are there.  It writes no file, and in
    test mode [data_match] stays [None]. *)
Theorem init_reads_the_files_of_the_mode
        (path : string) (train save_to_excel : bool)
        (colstonotconsider : option (list string))
        (fs : gmap string DataFrame) :
  let start :=
    __init__ path train save_to_excel colstonotconsider (mkWorld fs ∅) in
  fst start
  = match List.find (missing fs) (csv_paths path train) with
    | Some p => Raise (FileNotFoundError p)
    | None => Ok tt
    end
  /\ files (snd start) = fs
  /\ (train = false -> self (snd start) !! "data_match" = Some PNone).
Proof.
  prun. attr. prun. unfold csv_paths, missing.
  destruct train; prun; cbn [List.find];
    repeat match goal with
           | |- context [fs !! ?p] => destruct (fs !! p) eqn:?; prun; cbn [List.find]
           end;
    (split; [reflexivity|]; split; [reflexivity|]);
    intros; try discriminate; attr; reflexivity.
Qed.

(** The inner loop of [remove_columns] is one drop of the listed labels. *)
Lemma remove_step_drop df col :
  (if has_label col (names df) then drop_labels df [col] else df)
  = drop_labels df [col].
Proof.
  destruct (has_label col (names df)) eqn:E; [reflexivity|].
  apply has_label_not_In in E. destruct df as [n cols]. unfold drop_labels.
  cbn [len columns]. f_equal. symmetry. apply filter_all. intros [c s] Hin.
  cbn [fst]. apply Bool.negb_true_iff, has_label_not_In. intros [Heq|[]].
  subst col. apply E. eapply (In_columns_names c s (mkDF n cols)); eauto.
Qed.

Lemma drop_labels_drop_labels df l1 l2 :
  drop_labels (drop_labels df l1) l2 = drop_labels df (l1 ++ l2).
Proof.
  unfold drop_labels. cbn [len columns]. f_equal.
  rewrite PipelineFacts.filter_filter. apply filter_ext. intros [c s]. cbn [fst].
  unfold has_label. rewrite existsb_app. now rewrite Bool.negb_orb.
Qed.

Lemma remove_from_drop_labels cols : forall df,
  remove_from cols df = drop_labels df cols.
Proof.
  unfold remove_from. induction cols as [|col cols IH]; intros df; simpl.
  - now rewrite drop_labels_nil.
  - rewrite remove_step_drop, IH. apply drop_labels_drop_labels.
Qed.

Lemma remove_from_idempotent cols df :
  remove_from cols (remove_from cols df) = remove_from cols df.
Proof.
  rewrite !remove_from_drop_labels, drop_labels_drop_labels.
  unfold drop_labels. f_equal.
  apply filter_ext. intros [c s]. cbn [fst]. unfold has_label.
  rewrite existsb_app. now rewrite Bool.orb_diag.
Qed.

(** X11. The loop of [remove_columns] takes out of a frame exactly the
    columns whose label is listed; a listed label the frame does not have
    is passed over, the other columns and the number of rows are as they
    were, and a second pass changes nothing. *)
Theorem remove_from_takes_listed_columns (cols : list string) (df : DataFrame) :
  (forall c s, In (c, s) (columns (remove_from cols df))
               <-> In (c, s) (columns df) /\ ~ In c cols)
  /\ len (remove_from cols df) = len df
  /\ (forall c, ~ In c cols ->
                getitem (remove_from cols df) c = getitem df c)
  /\ remove_from cols (remove_from cols df) = remove_from cols df.
Proof.
  split; [|split; [|split]]; [| | |apply remove_from_idempotent];
    rewrite !remove_from_drop_labels.
  - intros c s. apply In_drop_labels.
  - reflexivity.
  - intros c Hc. now apply getitem_drop_labels.
Qed.

Lemma remove_columns_run fs cols (s0 : gmap string pyval) a b c d :
  s0 !! "mode" = None ->
  s0 !! "colstonotconsider" = Some (PList cols) ->
  s0 !! "data_home_team" = Some (PFrame a) ->
  s0 !! "data_home_players" = Some (PFrame b) ->
  s0 !! "data_away_team" = Some (PFrame c) ->
  s0 !! "data_away_players" = Some (PFrame d) ->
  let s1 :=
    <["data_away_players" := PFrame (remove_from cols d)]>
      (<["data_away_team" := PFrame (remove_from cols c)]>
         (<["data_home_players" := PFrame (remove_from cols b)]>
            (<["data_home_team" := PFrame (remove_from cols a)]> s0))) in
  prepare_data (mkWorld fs s0) = (Raise (AttributeError "mode"), mkWorld fs s1)
  /\ remove_columns (mkWorld fs s0) = (Ok tt, mkWorld fs s1).
Proof.
  intros H0 H1 H2 H3 H4 H5 s1. unfold s1.
  split; prun; rewrite H1; prun; rewrite H2; prun; attr;
    rewrite H3; prun; attr; rewrite H4; prun; attr; rewrite H5; prun; attr;
    rewrite ?H0; reflexivity.
Qed.

Lemma init_files path train save_to_excel cols fs w :
  __init__ path train save_to_excel cols (mkWorld fs ∅) = (Ok tt, w) ->
  files w = fs.
Proof.
  prun. attr. prun. destruct train; prun; split_matches; intros [= <-];
    reflexivity.
Qed.

(** X12. All that [prepare_data] does to an instance is what
    [remove_columns] does: it ends, with the error on [mode], in the state
    [remove_columns] alone leaves, where the four statistics frames have
    lost the excluded columns and every other attribute and every file is
    as before; a second call changes nothing more. *)
Theorem prepare_data_only_removes_columns
        (w : world) (cols : list string) (ht hp at_ ap : DataFrame) :
  self w !! "mode" = None ->
  self w !! "colstonotconsider" = Some (PList cols) ->
  self w !! "data_home_team" = Some (PFrame ht) ->
  self w !! "data_home_players" = Some (PFrame hp) ->
  self w !! "data_away_team" = Some (PFrame at_) ->
  self w !! "data_away_players" = Some (PFrame ap) ->
  exists w',
    prepare_data w = (Raise (AttributeError "mode"), w')
    /\ remove_columns w = (Ok tt, w')
    /\ files w' = files w
    /\ self w' !! "data_home_team" = Some (PFrame (remove_from cols ht))
    /\ self w' !! "data_home_players" = Some (PFrame (remove_from cols hp))
    /\ self w' !! "data_away_team" = Some (PFrame (remove_from cols at_))
    /\ self w' !! "data_away_players" = Some (PFrame (remove_from cols ap))
    /\ (forall k, ~ In k ["data_home_team"; "data_home_players";
                          "data_away_team"; "data_away_players"] ->
                  self w' !! k = self w !! k)
    /\ prepare_data w' = (Raise (AttributeError "mode"), w').
Proof.
  intros Hmode Hcols Hht Hhp Hat Hap. destruct w as [fs s]. cbn [self] in *.
  pose proof (remove_columns_run fs cols) as Hrun.
  destruct (Hrun s ht hp at_ ap Hmode Hcols Hht Hhp Hat Hap) as [Hp Hr].
  eexists. split; [exact Hp|]. split; [exact Hr|]. cbn [files self].
  split; [reflexivity|].
  repeat (split; [attr; reflexivity|]).
  split.
  - intros k Hk. rewrite !lookup_insert_ne; [reflexivity|..];
      intros <-; apply Hk; simpl; tauto.
  - match goal with
    | |- prepare_data (mkWorld fs ?s1) = _ =>
        destruct (Hrun s1 (remove_from cols ht) (remove_from cols hp)
                    (remove_from cols at_) (remove_from cols ap)) as [Hp2 _];
        [attr; first [assumption | reflexivity] ..|]
    end.
    rewrite Hp2. f_equal. f_equal.
    rewrite !remove_from_idempotent.
    repeat (rewrite insert_id; [|attr; reflexivity]).
    reflexivity.
Qed.

(** Strings: appending on either side can be undone. *)
Lemma append_inj_l (p a b : string) : (p ++ a)%string = (p ++ b)%string -> a = b.
Proof.
  induction p as [|x p IH]; simpl; [auto|]. intros [= H]. auto.
Qed.

Lemma length_append (a b : string) :
  String.length (a ++ b) = String.length a + String.length b.
Proof. induction a as [|x a IH]; simpl; [reflexivity | now rewrite IH]. Qed.

Lemma append_inj_r (s a b : string) : (a ++ s)%string = (b ++ s)%string -> a = b.
Proof.
  revert b. induction a as [|x a IH]; intros [|y b] H.
  - reflexivity.
  - apply (f_equal String.length) in H. rewrite !length_append in H. simpl in H. lia.
  - apply (f_equal String.length) in H. rewrite !length_append in H. simpl in H. lia.
  - simpl in H. injection H as -> H. f_equal. auto.
Qed.

Lemma rename_label_empty c : rename_label "" "" c = c.
Proof.
  unfold rename_label. change ("" ++ c)%string with c.
  destruct (String.eqb c "ID") eqn:E; rewrite ?E; [reflexivity|].
  apply append_empty.
Qed.

Lemma rename_label_prefix prefix c :
  rename_label prefix "" c = if String.eqb c "ID" then c else (prefix ++ c)%string.
Proof.
  unfold rename_label.
  destruct (String.eqb c "ID") eqn:E; rewrite ?E; [reflexivity|].
  destruct (String.eqb (prefix ++ c) "ID"); [reflexivity | apply append_empty].
Qed.

Lemma rename_label_suffix suffix c :
  rename_label "" suffix c = if String.eqb c "ID" then c else (c ++ suffix)%string.
Proof.
  unfold rename_label. change ("" ++ c)%string with c.
  destruct (String.eqb c "ID") eqn:E; rewrite ?E; reflexivity.
Qed.

Lemma rename_columns_columns (df : DataFrame) prefix suffix :
  columns (rename_columns df prefix suffix)
  = map (fun p => (rename_label prefix suffix (fst p), snd p)) (columns df).
Proof.
  unfold rename_columns.
  destruct (String.eqb prefix "") eqn:Ep, (String.eqb suffix "") eqn:Es;
    cbn [negb]; unfold rename;
    cbn [frame_columns with_columns DataFrame_Frame columns];
    rewrite ?map_map; try apply String.eqb_eq in Ep; try apply String.eqb_eq in Es;
    subst.
  - rewrite <- (map_id (columns df)) at 1. apply map_ext. intros [c s].
    cbn [fst snd]. now rewrite rename_label_empty.
  - apply map_ext. intros [c s]. cbn [fst snd]. now rewrite rename_label_suffix.
  - apply map_ext. intros [c s]. cbn [fst snd]. now rewrite rename_label_prefix.
  - apply map_ext. intros [c s]. cbn [fst snd]. reflexivity.
Qed.

(** X13. [rename_columns] changes labels only: the columns keep their
    order, their values and the number of rows; a label becomes prefix +
    label + suffix, except that a label equal to [ID] -- before or after
    the prefix is put -- is spared.  When no renamed label turns into
    [ID], distinct labels stay distinct. *)
Theorem rename_columns_renames (df : DataFrame) (prefix suffix : string) :
  names (rename_columns df prefix suffix)
  = map (rename_label prefix suffix) (names df)
  /\ map snd (columns (rename_columns df prefix suffix)) = map snd (columns df)
  /\ len (rename_columns df prefix suffix) = len df
  /\ (In "ID" (names df) -> In "ID" (names (rename_columns df prefix suffix)))
  /\ ((forall c, In c (names df) -> c <> "ID" ->
                 rename_label prefix suffix c <> "ID") ->
      NoDup (names df) -> NoDup (names (rename_columns df prefix suffix))).
Proof.
  assert (Hn : names (rename_columns df prefix suffix)
               = map (rename_label prefix suffix) (names df)).
  { unfold names. rewrite rename_columns_columns, !map_map. reflexivity. }
  split; [exact Hn|]. split; [|split; [|split]].
  - rewrite rename_columns_columns, map_map. reflexivity.
  - unfold rename_columns, rename.
    destruct (negb (String.eqb prefix "")), (negb (String.eqb suffix ""));
      reflexivity.
  - intros Hid. rewrite Hn. apply in_map_iff. exists "ID". split; [reflexivity|assumption].
  - intros Hfree Hnd. rewrite Hn. apply NoDup_fmap_2_strong; [|assumption].
    intros a b Ha Hb Heq. rewrite list_elem_of_In in Ha, Hb.
    destruct (String.eqb a "ID") eqn:Ea, (String.eqb b "ID") eqn:Eb.
    + apply String.eqb_eq in Ea, Eb. congruence.
    + apply String.eqb_eq in Ea. apply String.eqb_neq in Eb. subst a.
      exfalso. apply (Hfree b Hb Eb). rewrite <- Heq. reflexivity.
    + apply String.eqb_eq in Eb. apply String.eqb_neq in Ea. subst b.
      exfalso. apply (Hfree a Ha Ea). rewrite Heq. reflexivity.
    + pose proof (Hfree a Ha) as Hfa. pose proof (Hfree b Hb) as Hfb.
      apply String.eqb_neq in Ea as Ha', Eb as Hb'.
      specialize (Hfa Ha'). specialize (Hfb Hb').
      unfold rename_label in *. rewrite Ea in *. rewrite Eb in *.
      destruct (String.eqb (prefix ++ a) "ID") eqn:Ea2.
      { apply String.eqb_eq in Ea2. congruence. }
      destruct (String.eqb (prefix ++ b) "ID") eqn:Eb2.
      { apply String.eqb_eq in Eb2. congruence. }
      apply append_inj_r in Heq. now apply append_inj_l in Heq.
Qed.

(** X14. [prepare_player_data] raises KeyError for [ID] when the table has
    no such column, and returns otherwise; the table it returns has five
    columns per attribute column, each as long as the list of match
    identifiers. *)
Theorem prepare_player_data_needs_ID (data : DataFrame) (prefix : string) :
  (~ In "ID" (names data) ->
   prepare_player_data data prefix = Raise (KeyError "ID"))
  /\ (In "ID" (names data) ->
      exists g,
        prepare_player_data data prefix = Ok g
        /\ length (summaries g) = 5 * length (attribute_columns data)
        /\ Forall (fun p => length (snd p) = length (index g)) (summaries g)).
Proof.
  split.
  - intros Hout. unfold prepare_player_data, groupby.
    now rewrite (ScalerEdgeFacts.getitem_absent data "ID" Hout).
  - intros Hin. destruct (getitem_names data "ID" Hin) as [key Hkey].
    eexists. split.
    { unfold prepare_player_data. rewrite !(groupby_ok data key) by assumption.
      cbn [rbind].
      rewrite !rename_columns_summary_block
        by (reflexivity || apply attribute_columns_not_ID).
      reflexivity. }
    unfold concat. cbn [index_name index summaries flat_map]. rewrite app_nil_r.
    split.
    + rewrite !length_app. unfold summary_block. rewrite !length_map. lia.
    + rewrite !Forall_app. unfold summary_block.
      repeat split; apply Forall_forall; intros p Hp;
        rewrite list_elem_of_In in Hp;
        apply in_map_iff in Hp as (q & <- & _); cbn [snd];
        now rewrite !length_map.
Qed.

Lemma add_results_names dm m c :
  add_results dm = Ok m -> (In c (names m) <-> In c (names dm) \/ c = "results").
Proof.
  unfold add_results. destruct (apply_rows dm outcome_label); [|discriminate].
  cbn [rbind]. intros [= <-]. apply In_names_set_column.
Qed.

Lemma drop_Ok_names df labels df' l :
  drop df labels = Ok df' -> In l labels -> In l (names df).
Proof.
  unfold drop. destruct (List.find _ labels) eqn:E; [discriminate|].
  intros _ Hl. pose proof (find_none _ _ E l Hl) as H. cbn beta in H.
  apply Bool.negb_false_iff in H. now apply has_label_In.
Qed.

(** X15. [derive_target] returns only on a table that has the three
    indicator columns, and on a table with rows it does return then; on a
    table with rows and no [HOME_WINS] column it raises KeyError for
    [HOME_WINS]. *)
Theorem derive_target_needs_the_indicators (dm : DataFrame) :
  (forall dm', derive_target dm = Ok dm' ->
               In "HOME_WINS" (names dm) /\ In "DRAW" (names dm)
               /\ In "AWAY_WINS" (names dm))
  /\ (len dm <> 0 -> In "HOME_WINS" (names dm) -> In "DRAW" (names dm) ->
      In "AWAY_WINS" (names dm) ->
      exists dm', derive_target dm = Ok dm')
  /\ (len dm <> 0 -> ~ In "HOME_WINS" (names dm) ->
      derive_target dm = Raise (KeyError "HOME_WINS")).
Proof.
  split; [|split].
  - intros dm' H. unfold derive_target in H.
    destruct (add_results dm) as [m|] eqn:Hm; [|discriminate]. cbn [rbind] in H.
    assert (Hl : forall l, In l ["HOME_WINS"; "DRAW"; "AWAY_WINS"] -> In l (names dm)).
    { intros l Hl. pose proof (drop_Ok_names _ _ _ l H Hl) as Hin.
      apply (add_results_names dm m l Hm) in Hin as [Hin| ->]; [assumption|].
      destruct Hl as [Hl|[Hl|[Hl|[]]]]; discriminate Hl. }
    repeat split; apply Hl; simpl; tauto.
  - intros _ Hhw Hdr Haw.
    destruct (getitem_names dm _ Hhw) as [hw Hhw'].
    destruct (getitem_names dm _ Hdr) as [dr Hdr'].
    unfold derive_target. rewrite (add_results_ok dm hw dr Hhw' Hdr').
    cbn [rbind]. eexists. apply drop_ok.
    intros l Hl. unfold names, setitem. cbn [columns]. apply In_names_set_column.
    left. destruct Hl as [<-|[<-|[<-|[]]]]; assumption.
  - intros Hlen Hout. unfold derive_target, add_results, apply_rows.
    destruct (len dm) as [|n]; [congruence|]. cbn [seq map collect].
    unfold outcome_label at 1, row at 1.
    now rewrite (ScalerEdgeFacts.getitem_absent dm "HOME_WINS" Hout).
Qed.

(** X16. [save_data] writes the table under the very name
    [DataScaler.load_data] reads in the same mode, so that a scaler created
    afterwards loads that table; it writes the Excel file only when asked
    to, touches no other file and leaves the instance as it was. *)
Theorem save_data_writes_what_load_data_reads
        (w : world) (tr excel : bool) (d : DataFrame) (h : list DataFrame) :
  self w !! "train" = Some (PBool tr) ->
  self w !! "data" = Some (PFrame d) ->
  self w !! "save_to_excel" = Some (PBool excel) ->
  let xlsx := if tr then "data/prepared_data_train.xlsx"
              else "data/prepared_data_test.xlsx" in
  exists w',
    save_data w = (Ok tt, w')
    /\ self w' = self w
    /\ files w' !! parquet_of tr = Some d
    /\ files w' !! xlsx = (if excel then Some d else files w !! xlsx)
    /\ (forall p, p <> parquet_of tr -> p <> xlsx -> files w' !! p = files w !! p)
    /\ GetData.load_data (GetData.mkWorld (files w') h (GetData.__init__ tr))
       = (Ok tt,
          GetData.mkWorld (files w') (h ++ [d])
            (GetData.mkScaler tr (Some (length h)) None "results")).
Proof.
  intros Htr Hd Hx xlsx. destruct w as [fs s]. cbn [self files] in *.
  assert (Hload : forall fs', fs' !! parquet_of tr = Some d ->
            GetData.load_data (GetData.mkWorld fs' h (GetData.__init__ tr))
            = (Ok tt,
               GetData.mkWorld fs' (h ++ [d])
                 (GetData.mkScaler tr (Some (length h)) None "results"))).
  { intros fs' Hf. PipelineFacts.run.
    destruct tr; cbv [parquet_of] in Hf; rewrite Hf; reflexivity. }
  unfold xlsx. clear xlsx.
  destruct tr, excel; eexists;
    (split;
     [ prun2; rewrite Htr; prun2; rewrite Hd; prun2; rewrite Hx; prun2;
       rewrite ?Hd; prun2; reflexivity |]);
    cbv [String.append]; cbn [self files parquet_of];
    (split; [reflexivity|]);
    (split; [attr; reflexivity|]);
    (split; [attr; reflexivity|]);
    (split; [intros p Hp1 Hp2; rewrite ?lookup_insert_ne by congruence; reflexivity|]);
    apply Hload; cbv [parquet_of]; attr; reflexivity.
Qed.

(** X17. As the code stands no table is ever saved: on an instance that
    [__init__] has built, [prepare_data] fails and leaves [data] at
    [None], and [save_data] then raises the attribute error for
    [to_parquet] without writing a file. *)
Theorem nothing_is_ever_saved
        (path : string) (train save_to_excel : bool)
        (colstonotconsider : option (list string))
        (fs : gmap string DataFrame) (w : world) :
  __init__ path train save_to_excel colstonotconsider (mkWorld fs ∅)
  = (Ok tt, w) ->
  exists w',
    snd (prepare_data w) = w'
    /\ save_data w = (Raise (AttributeError "to_parquet"), w)
    /\ save_data w' = (Raise (AttributeError "to_parquet"), w')
    /\ files w' = fs.
Proof.
  intros Hinit.
  pose proof (init_constructed _ _ _ _ _ _ Hinit) as Hc.
  destruct (prepare_data_constructed train w Hc) as (w' & Hrun & Hdata & _).
  destruct Hc as (Hmode & Htr & Hd & [cols Hcols] & [ht Hht] & [hp Hhp]
                  & [at_ Hat] & [ap Hap]).
  exists w'. rewrite Hrun. split; [reflexivity|].
  assert (Hsave : forall v, self v !! "train" = Some (PBool train) ->
                    self v !! "data" = Some PNone ->
                    save_data v = (Raise (AttributeError "to_parquet"), v)).
  { intros [f s] H1 H2. cbn [self] in *. prun2. rewrite H1. prun2. rewrite H2.
    reflexivity. }
  pose proof (init_files _ _ _ _ _ _ Hinit) as Hfiles.
  destruct w as [f s]. cbn [self files] in *. subst f.
  destruct (remove_columns_run fs cols s ht hp at_ ap
              Hmode Hcols Hht Hhp Hat Hap) as [Hrun' _].
  rewrite Hrun' in Hrun. injection Hrun as <-.
  split; [now apply Hsave|]. split; [|reflexivity].
  apply Hsave; cbn [self]; attr; assumption.
Qed.

End AggregatorEdgeFacts.

(** ** The further theorems at work on the small tables *)

Module EdgeWitnesses.
Import Pandas PandasFacts Reference Auxiliary.

Lemma get_data_missing_file_witness :
  (∅ : gmap string DataFrame) !! parquet_of true = None
  /\ GetData.get_data (fun q => q) (GetData.mkWorld ∅ [] (GetData.__init__ true))
     = (Raise (FileNotFoundError (parquet_of true)),
        GetData.mkWorld ∅ [] (GetData.__init__ true)).
Proof.
  assert (H : (∅ : gmap string DataFrame) !! parquet_of true = None) by reflexivity.
  split; [assumption|].
  exact (ScalerEdgeFacts.get_data_missing_file (fun q => q) ∅ [] true H).
Defined.

Lemma prepare_data_zero_division_witness :
  let fs := Examples.parquet_files no_rows all_sparse in
  fs !! parquet_of true = Some no_rows
  /\ (len no_rows = 0
      \/ forall c, In c (names no_rows) -> In c (GetData.sparse_columns 0.2 no_rows))
  /\ fst (GetData.prepare_data (fun q => q)
            (GetData.mkWorld fs [] (GetData.__init__ true)))
     = Raise ZeroDivisionError.
Proof.
  intros fs.
  assert (H1 : fs !! parquet_of true = Some no_rows) by reflexivity.
  assert (H2 : len no_rows = 0
               \/ forall c, In c (names no_rows) ->
                            In c (GetData.sparse_columns 0.2 no_rows))
    by (left; reflexivity).
  repeat (split; [assumption|]).
  exact (ScalerEdgeFacts.prepare_data_zero_division (fun q => q) fs [] true _ H1 H2).
Defined.

Lemma get_data_train_mode_files_witness :
  let fs1 := Examples.parquet_files Examples.prepared Examples.test_complete in
  let fs2 := Examples.parquet_files Examples.prepared Examples.test_sparse in
  fs1 !! parquet_of true = fs2 !! parquet_of true
  /\ exists r h' s,
      GetData.get_data (fun q => q) (GetData.mkWorld fs1 [] (GetData.__init__ true))
      = (r, GetData.mkWorld fs1 h' s)
      /\ GetData.get_data (fun q => q) (GetData.mkWorld fs2 [] (GetData.__init__ true))
         = (r, GetData.mkWorld fs2 h' s).
Proof.
  intros fs1 fs2.
  assert (H : fs1 !! parquet_of true = fs2 !! parquet_of true) by reflexivity.
  split; [assumption|].
  exact (ScalerEdgeFacts.get_data_train_mode_files (fun q => q) fs1 fs2 [] H).
Defined.

Lemma scale_data_stops_at_missing_column_witness :
  let h : list DataFrame := [Examples.test_complete; Examples.prepared] in
  0 <> 1
  /\ h !! 0 = Some Examples.test_complete
  /\ h !! 1 = Some Examples.prepared
  /\ (forall c', In c' ["a"] ->
                 In c' (names Examples.test_complete)
                 /\ In c' (names Examples.prepared))
  /\ (~ In "b" (names Examples.test_complete) \/ ~ In "b" (names Examples.prepared))
  /\ fst (GetData.scale_data (fun q => q) 0 (["a"] ++ "b" :: ["c"]) 1 h)
     = Raise (KeyError "b").
Proof.
  intros h.
  assert (H0 : 0 <> 1) by discriminate.
  assert (H1 : h !! 0 = Some Examples.test_complete) by reflexivity.
  assert (H2 : h !! 1 = Some Examples.prepared) by reflexivity.
  assert (H3 : forall c', In c' ["a"] ->
                 In c' (names Examples.test_complete)
                 /\ In c' (names Examples.prepared)).
  { intros c' [<-|[]]. simpl. tauto. }
  assert (H4 : ~ In "b" (names Examples.test_complete)
               \/ ~ In "b" (names Examples.prepared)).
  { left. simpl. intros [H|[H|[]]]; discriminate H. }
  repeat (split; [assumption|]).
  rewrite (ScalerEdgeFacts.scale_data_stops_at_missing_column
             (fun q => q) h 0 1 _ _ ["a"] ["c"] "b" H0 H1 H2 H3 H4).
  reflexivity.
Defined.

Lemma prepared_has_a_dense_column :
  exists c, In c (names Examples.prepared)
            /\ ~ In c (GetData.sparse_columns 0.2 Examples.prepared).
Proof.
  exists "a". split; [simpl; tauto|]. vm_compute. intros [H|[]]. discriminate H.
Defined.

Lemma prepare_data_leaves_complete_rows_witness :
  let fs := Examples.parquet_files Examples.prepared Examples.prepared in
  fs !! parquet_of true = Some Examples.prepared
  /\ len Examples.prepared <> 0
  /\ (exists c, In c (names Examples.prepared)
                /\ ~ In c (GetData.sparse_columns 0.2 Examples.prepared))
  /\ exists w,
      GetData.prepare_data (fun q => q) (GetData.mkWorld fs [] (GetData.__init__ true))
      = (Ok tt, w).
Proof.
  intros fs.
  assert (H1 : fs !! parquet_of true = Some Examples.prepared) by reflexivity.
  assert (H2 : len Examples.prepared <> 0) by discriminate.
  pose proof prepared_has_a_dense_column as H3.
  repeat (split; [assumption|]).
  destruct (ScalerEdgeFacts.prepare_data_leaves_complete_rows
              (fun q => q) fs [] true _ H1 H2 H3) as (w & _ & _ & _ & Hrun & _).
  exists w. exact Hrun.
Defined.

Lemma prepare_data_feature_list_witness :
  let fs := Examples.parquet_files Examples.prepared Examples.prepared in
  fs !! parquet_of false = Some Examples.prepared
  /\ len Examples.prepared <> 0
  /\ (exists c, In c (names Examples.prepared)
                /\ ~ In c (GetData.sparse_columns 0.2 Examples.prepared))
  /\ exists w fc,
      GetData.prepare_data (fun q => q) (GetData.mkWorld fs [] (GetData.__init__ false))
      = (Ok tt, w)
      /\ GetData.feature_columns (GetData.self w) = Some fc
      /\ ~ In "ID" fc.
Proof.
  intros fs.
  assert (H1 : fs !! parquet_of false = Some Examples.prepared) by reflexivity.
  assert (H2 : len Examples.prepared <> 0) by discriminate.
  pose proof prepared_has_a_dense_column as H3.
  repeat (split; [assumption|]).
  destruct (ScalerEdgeFacts.prepare_data_feature_list
              (fun q => q) fs [] false _ H1 H2 H3)
    as (w & _ & fc & _ & Hrun & _ & Hfc & _ & _ & Hid & _).
  exists w, fc. auto.
Defined.

Lemma prepare_data_scales_against_itself_witness :
  let fs := Examples.parquet_files Examples.prepared Examples.prepared in
  fs !! parquet_of true = Some Examples.prepared
  /\ NoDup (names Examples.prepared)
  /\ len Examples.prepared <> 0
  /\ (exists c, In c (names Examples.prepared)
                /\ ~ In c (GetData.sparse_columns 0.2 Examples.prepared))
  /\ exists w,
      GetData.prepare_data (fun q => q) (GetData.mkWorld fs [] (GetData.__init__ true))
      = (Ok tt, w).
Proof.
  intros fs.
  assert (H1 : fs !! parquet_of true = Some Examples.prepared) by reflexivity.
  assert (H0 : NoDup (names Examples.prepared))
    by (apply (bool_decide_unpack _); vm_compute; exact I).
  assert (H2 : len Examples.prepared <> 0) by discriminate.
  pose proof prepared_has_a_dense_column as H3.
  repeat (split; [assumption|]).
  destruct (ScalerEdgeFacts.prepare_data_scales_against_itself
              (fun q => q) fs [] true _ H1 H0 H2 H3) as (w & _ & _ & _ & Hrun & _).
  exists w. exact Hrun.
Defined.

Lemma standardized_column_has_mean_zero_witness :
  mean (map Num [1; 2; 3]%Q) = Num (6 # 3)
  /\ ~ (1 == 0)%Q
  /\ exists q,
      mean (map (fun v => div (sub v (Num (6 # 3))) (Num 1)) (map Num [1; 2; 3]%Q))
      = Num q
      /\ (q == 0)%Q.
Proof.
  assert (H1 : mean (map Num [1; 2; 3]%Q) = Num (6 # 3)) by reflexivity.
  assert (H2 : ~ (1 == 0)%Q) by discriminate.
  repeat (split; [assumption|]).
  exact (ScalerEdgeFacts.standardized_column_has_mean_zero (6 # 3) 1 [1; 2; 3]%Q H1 H2).
Defined.

Lemma get_data_test_mode_keeps_test_rows_witness :
  let fs := Examples.parquet_files Examples.prepared Examples.test_complete in
  let out :=
    GetData.get_data (fun q => q) (GetData.mkWorld fs [] (GetData.__init__ false)) in
  fs !! parquet_of false = Some Examples.test_complete
  /\ out = (Ok (5, ["a"], "results"), snd out)
  /\ exists td',
      GetData.objects (snd out) !! 5 = Some td'
      /\ len td' = 5.
Proof.
  intros fs out.
  assert (H1 : fs !! parquet_of false = Some Examples.test_complete) by reflexivity.
  assert (H2 : out = (Ok (5, ["a"], "results"), snd out)) by (vm_compute; reflexivity).
  repeat (split; [assumption|]).
  destruct (ScalerEdgeFacts.get_data_test_mode_keeps_test_rows
              (fun q => q) fs [] _ 5 ["a"] "results" (snd out) H1 H2)
    as (td' & Hl & _ & _ & _ & Hlen & _).
  exists td'. split; [assumption|]. rewrite Hlen. reflexivity.
Defined.

Lemma prepare_data_only_removes_columns_witness :
  let w :=
    snd (PrepareData.__init__ "d/" true true None
           (PrepareData.mkWorld Examples.csv_files ∅)) in
  let cols := ["TEAM_NAME"; "LEAGUE"; "PLAYER_NAME"; "POSITION"] in
  PrepareData.self w !! "mode" = None
  /\ PrepareData.self w !! "colstonotconsider" = Some (PrepareData.PList cols)
  /\ PrepareData.self w !! "data_home_team" = Some (PrepareData.PFrame Examples.teams)
  /\ PrepareData.self w !! "data_home_players"
     = Some (PrepareData.PFrame Examples.match_players)
  /\ PrepareData.self w !! "data_away_team" = Some (PrepareData.PFrame Examples.teams)
  /\ PrepareData.self w !! "data_away_players"
     = Some (PrepareData.PFrame Examples.match_players)
  /\ exists w',
      PrepareData.prepare_data w = (Raise (AttributeError "mode"), w')
      /\ PrepareData.remove_columns w = (Ok tt, w').
Proof.
  intros w cols.
  assert (H0 : PrepareData.self w !! "mode" = None) by reflexivity.
  assert (H1 : PrepareData.self w !! "colstonotconsider"
               = Some (PrepareData.PList cols)) by reflexivity.
  assert (H2 : PrepareData.self w !! "data_home_team"
               = Some (PrepareData.PFrame Examples.teams)) by reflexivity.
  assert (H3 : PrepareData.self w !! "data_home_players"
               = Some (PrepareData.PFrame Examples.match_players)) by reflexivity.
  assert (H4 : PrepareData.self w !! "data_away_team"
               = Some (PrepareData.PFrame Examples.teams)) by reflexivity.
  assert (H5 : PrepareData.self w !! "data_away_players"
               = Some (PrepareData.PFrame Examples.match_players)) by reflexivity.
  repeat (split; [assumption|]).
  destruct (AggregatorEdgeFacts.prepare_data_only_removes_columns
              w cols _ _ _ _ H0 H1 H2 H3 H4 H5) as (w' & Hp & Hr & _).
  exists w'. auto.
Defined.

Lemma save_data_writes_what_load_data_reads_witness :
  let w :=
    PrepareData.mkWorld ∅
      (<["save_to_excel" := PrepareData.PBool false]>
         (<["data" := PrepareData.PFrame Examples.prepared]>
            (<["train" := PrepareData.PBool true]> ∅))) in
  PrepareData.self w !! "train" = Some (PrepareData.PBool true)
  /\ PrepareData.self w !! "data" = Some (PrepareData.PFrame Examples.prepared)
  /\ PrepareData.self w !! "save_to_excel" = Some (PrepareData.PBool false)
  /\ exists w',
      PrepareData.save_data w = (Ok tt, w')
      /\ PrepareData.files w' !! parquet_of true = Some Examples.prepared.
Proof.
  intros w.
  assert (H1 : PrepareData.self w !! "train" = Some (PrepareData.PBool true))
    by reflexivity.
  assert (H2 : PrepareData.self w !! "data"
               = Some (PrepareData.PFrame Examples.prepared)) by reflexivity.
  assert (H3 : PrepareData.self w !! "save_to_excel"
               = Some (PrepareData.PBool false)) by reflexivity.
  repeat (split; [assumption|]).
  destruct (AggregatorEdgeFacts.save_data_writes_what_load_data_reads
              w true false _ [] H1 H2 H3) as (w' & Hrun & _ & Hf & _).
  exists w'. auto.
Defined.

Lemma nothing_is_ever_saved_witness :
  let start :=
    PrepareData.__init__ "d/" true true None
      (PrepareData.mkWorld Examples.csv_files ∅) in
  start = (Ok tt, snd start)
  /\ PrepareData.save_data (snd start)
     = (Raise (AttributeError "to_parquet"), snd start).
Proof.
  intros start.
  assert (H : start = (Ok tt, snd start)) by (vm_compute; reflexivity).
  split; [assumption|].
  destruct (AggregatorEdgeFacts.nothing_is_ever_saved
              "d/" true true None Examples.csv_files (snd start) H)
    as (w' & _ & Hsave & _).
  exact Hsave.
Defined.

End EdgeWitnesses.
